(** * Substance VirtualBox driver: a shallow embedding and its properties

    The development follows [substance/driver/virtualbox/__init__.py].
    Python objects are the constructors of [value]; a method of the driver
    is a computation in the monad [M], which threads the driver's mutable
    state (the in-memory configuration and the history of calls made to the
    external collaborators) and may raise a Python exception.  The
    collaborators the driver imports ([substance.monads],
    [substance.config], [network], [machine], [netaddr]) are modelled from
    their contracts. *)

From stdpp Require Import gmap strings list.
From Stdlib Require Import ZArith Ascii String Lia.

#[local] Set Warnings "-register-all".
#[local] Open Scope Z_scope.

(** ** Python values *)

(** [substance.constants.EngineStates]: the closed set of engine states. *)
Inductive EngineStates := RUNNING | STOPPED | SUSPENDED | UNKNOWN | INEXISTENT.

(** The exception classes carried by a failed outcome. *)
Inductive ErrorKind :=
  | FileDoesNotExist
  | VirtualBoxObjectNotFound
  | VirtualBoxError
  | OtherError.

Record Error := mkError { err_kind : ErrorKind; err_msg : string }.

(** Python exceptions that escape as control flow (not as outcomes). *)
Inductive Exn := AttributeError | TypeError | KeyError | IndexError | ValueError | AddrFormatError.

(** Modelled from the spec: the Outcome type of [substance.monads], exactly
    one of Success(value) ([OK]) or Failure(error) ([Fail]). *)
Inductive Try (A : Type) :=
  | OK (a : A)
  | Fail (e : Error).
Arguments OK {A} a.
Arguments Fail {A} e.

(** Modelled from the spec: the host-only interface object reported by the
    backend, {name, assignedIPAddress}; the address is a [netaddr.IPAddress],
    kept as its 32-bit integer. *)
Record HostOnlyInterface := mkHoif { hoif_name : string; hoif_ip : Z }.

Inductive value :=
  | VNone
  | VBool (b : bool)
  | VStr (s : string)
  | VDict (d : gmap string value)
  | VTuple (l : list value)
  | VHoif (h : HostOnlyInterface)
  | VState (s : EngineStates)
  | VConfig
  | VObj (n : N)
  | VTry (t : Try value).

Definition EngineStates_eqb (a b : EngineStates) : bool :=
  match a, b with
  | RUNNING, RUNNING | STOPPED, STOPPED | SUSPENDED, SUSPENDED
  | UNKNOWN, UNKNOWN | INEXISTENT, INEXISTENT => true
  | _, _ => false
  end.

Definition ErrorKind_eqb (a b : ErrorKind) : bool :=
  match a, b with
  | FileDoesNotExist, FileDoesNotExist
  | VirtualBoxObjectNotFound, VirtualBoxObjectNotFound
  | VirtualBoxError, VirtualBoxError
  | OtherError, OtherError => true
  | _, _ => false
  end.

(** Truth value of an object in a condition ([if interface:], [not hoif]). *)
Definition truthy (v : value) : bool :=
  match v with
  | VNone => false
  | VBool b => b
  | VStr s => negb (String.eqb s "")
  | VDict d => negb (bool_decide (d = ∅))
  | VTuple l => match l with [] => false | _ => true end
  | _ => true
  end.

(** [v is EngineStates.X]: the members of the enumeration are singletons,
    and no other object is identical to one of them. *)
Definition is_state (v : value) (s : EngineStates) : bool :=
  match v with
  | VState s' => EngineStates_eqb s' s
  | _ => false
  end.

(** [s != v] for a string [s]: objects of another type are never equal to it. *)
Definition str_ne (s : string) (v : value) : bool :=
  match v with
  | VStr s' => negb (String.eqb s s')
  | _ => true
  end.

(** ** The world: driver state and call history *)

Inductive LogLevel := INFO | WARN | DEBUG.

(** One entry per call that leaves the driver. *)
Inductive Event :=
  | ELog (lvl : LogLevel) (msg : string) (args : list value)
  | ELoadConfigFile
  | ESaveConfig (persisted : gmap string value)
  | EReadHostOnlyInterface (name : value)
  | EReadDHCP (interface : value)
  | EAddHostOnlyInterface
  | EConfigureHostOnlyInterface (iface ip netmask : value)
  | ERemoveDHCP (interface : value)
  | EAddDHCP (interface gateway netmask lowerIP upperIP : value)
  | EStart (uuid : value)
  | EReadMachineState (uuid : value).

Record World := mkWorld {
  config : gmap string value;   (* self.config, in memory *)
  trace : list Event            (* calls made so far, oldest first *)
}.

(** What a Python expression evaluates to: a value, or an exception. *)
Inductive Res (A : Type) :=
  | Ret (a : A)
  | Raise (x : Exn).
Arguments Ret {A} a.
Arguments Raise {A} x.

(** Modelled from the spec: the external collaborators (section 6).  Each
    operation returns an Outcome; what it answers may depend on everything
    that was done before, so it is given the history.

    The last field belongs to the missing [substance.monads]: the spec gives
    [then(f)] for a function that returns an Outcome, and does not fix what
    [then] returns when the function returns another object (the [None] of a
    method that ends without [return]).  That is taken as a parameter: the
    result of [then] as a function of the value the receiver carries and of
    the object returned. *)
Record Backend := mkBackend {
  configFile : string;
  onLoadConfigFile : list Event -> Try (gmap string value);
  onSaveConfig : list Event -> gmap string value -> Try value;
  onReadHostOnlyInterface : list Event -> value -> Try HostOnlyInterface;
  onReadDHCP : list Event -> value -> Try value;
  onAddHostOnlyInterface : list Event -> Try value;
  onConfigureHostOnlyInterface : list Event -> value -> value -> value -> Try value;
  onRemoveDHCP : list Event -> value -> Try value;
  onAddDHCP : list Event -> value -> value -> value -> value -> value -> Try value;
  onStart : list Event -> value -> Try value;
  onReadMachineState : list Event -> value -> Try string;
  onThenNonOutcome : value -> value -> Res value
}.

(** ** The monad of driver computations *)

Definition M (A : Type) : Type := World -> Res A * World.

Definition ret {A} (a : A) : M A := fun w => (Ret a, w).
Definition raise {A} (x : Exn) : M A := fun w => (Raise x, w).
Definition pure_res {A} (r : Res A) : M A := fun w => (r, w).
Definition mbind {A B} (m : M A) (k : A -> M B) : M B :=
  fun w => match m w with
           | (Ret a, w') => k a w'
           | (Raise x, w') => (Raise x, w')
           end.

Declare Scope py_scope.
Delimit Scope py_scope with py.
Notation "x <- m ;; k" := (mbind m (fun x => k))
  (at level 100, m at next level, right associativity) : py_scope.
Notation "m ;;; k" := (mbind m (fun _ => k))
  (at level 100, right associativity) : py_scope.
#[local] Open Scope py_scope.

Definition emit (ev : Event) : M unit :=
  fun w => (Ret tt, {| config := config w; trace := trace w ++ [ev] |}).
Definition history : M (list Event) := fun w => (Ret (trace w), w).

Definition fmapTry {A B} (f : A -> B) (t : Try A) : Try B :=
  match t with OK a => OK (f a) | Fail e => Fail e end.

(** An external call: the collaborator answers from the history so far, and
    the call is recorded. *)
Definition call (ev : Event) (answer : list Event -> Try value) : M value :=
  h <- history ;; emit ev ;;; ret (VTry (answer h)).

(** [logging.info(msg)], [logging.warn(msg)]: the message is already
    formatted; [ddebug(msg, *args)] of [substance.logs] passes the arguments
    along. *)
Definition log (lvl : LogLevel) (msg : string) : M unit := emit (ELog lvl msg []).
Definition ddebug (msg : string) (args : list value) : M unit := emit (ELog DEBUG msg args).

(** ** [substance.monads]: the outcome combinators

    A combinator is a method: its receiver is whatever object the previous
    expression produced.  On an object that is not an outcome ([None], say)
    the attribute lookup raises [AttributeError]. *)
Module Monads.

(** Modelled from the spec: [bind(f)] of the missing [substance.monads]:
    Success(v) gives f(v), Failure(e) stays Failure(e) and f is not called. *)
Definition bind (self : value) (f : value -> M value) : M value :=
  match self with
  | VTry (OK v) => f v
  | VTry (Fail e) => ret (VTry (Fail e))
  | _ => raise AttributeError
  end.

(** Modelled from the spec: [then(f)] of the missing [substance.monads]:
    like [bind], but the carried value is discarded: on a Success the
    Outcome that [f] returns is the result, and a Failure is handed on
    without calling [f].  When [f] returns an object that is not an Outcome
    the result is the one the parameter [onThenNonOutcome] gives. *)
Definition then_ (B : Backend) (self : value) (f : M value) : M value :=
  match self with
  | VTry (OK v) =>
      r <- f ;;
      match r with
      | VTry _ => ret r
      | _ => pure_res (onThenNonOutcome B v r)
      end
  | VTry (Fail e) => ret (VTry (Fail e))
  | _ => raise AttributeError
  end.

(** Modelled from the spec: [catch(f)] of the missing [substance.monads]:
    Failure(e) gives f(e), whatever the error; Success(v) is unchanged. *)
Definition catch (self : value) (f : Error -> M value) : M value :=
  match self with
  | VTry (OK v) => ret (VTry (OK v))
  | VTry (Fail e) => f e
  | _ => raise AttributeError
  end.

(** Modelled from the spec: [catchTyped(kind, f)], named [catchError] in
    the source: recovers only when the error's kind is [kind]; any other
    failure propagates unchanged. *)
Definition catchError (self : value) (kind : ErrorKind) (f : Error -> M value) : M value :=
  match self with
  | VTry (OK v) => ret (VTry (OK v))
  | VTry (Fail e) => if ErrorKind_eqb (err_kind e) kind then f e else ret (VTry (Fail e))
  | _ => raise AttributeError
  end.

(** Modelled from the spec: [sequence] over outcomes that were already
    evaluated: Success of the tuple of values in input order when all
    succeeded, otherwise the first Failure in input order. *)
Fixpoint sequence_go (outcomes : list value) (acc : list value) : Res value :=
  match outcomes with
  | [] => Ret (VTry (OK (VTuple (rev acc))))
  | VTry (OK v) :: rest => sequence_go rest (v :: acc)
  | VTry (Fail e) :: _ => Ret (VTry (Fail e))
  | _ :: _ => Raise AttributeError
  end.

Definition sequence (outcomes : list value) : M value :=
  fun w => (sequence_go outcomes [], w).

(** [isFail()] and [getOK()], used on the result of adding an interface. *)
Definition isFail (self : value) : M bool :=
  match self with
  | VTry (OK _) => ret false
  | VTry (Fail _) => ret true
  | _ => raise AttributeError
  end.

Definition getOK (self : value) : M value :=
  match self with
  | VTry (OK v) => ret v
  | _ => raise AttributeError
  end.

End Monads.

(** ** [substance.config.Config] *)
Module Config.

(** Modelled from the spec: [get(key, default)] of the missing
    [substance.config]: the stored value, or the default. *)
Definition get (key : string) (dflt : value) : M value :=
  fun w => (Ret (default dflt (config w !! key)), w).

(** Modelled from the spec: [set(key, value)], in memory only. *)
Definition set (key : string) (v : value) : M unit :=
  fun w => (Ret tt, {| config := <[key := v]> (config w); trace := trace w |}).

(** Modelled from the spec: [saveConfig()] persists the in-memory
    configuration and returns the Outcome of the write. *)
Definition saveConfig (B : Backend) : M value :=
  fun w => call (ESaveConfig (config w)) (fun h => onSaveConfig B h (config w)) w.

(** Modelled from the spec: [loadConfigFile()] returns Success of the
    configuration object, whose content is then what the file holds, or a
    Failure ([FileDoesNotExist] when the file is absent). *)
Definition loadConfigFile (B : Backend) : M value :=
  fun w =>
    let w' := {| config := config w; trace := trace w ++ [ELoadConfigFile] |} in
    match onLoadConfigFile B (trace w) with
    | OK stored => (Ret (VTry (OK VConfig)), {| config := stored; trace := trace w' |})
    | Fail e => (Ret (VTry (Fail e)), w')
    end.

Definition getConfigFile (B : Backend) : string := configFile B.

End Config.

(** ** The [network] and [machine] modules: bindings to the backend *)
Module Network.

Definition readHostOnlyInterface (B : Backend) (name : value) : M value :=
  call (EReadHostOnlyInterface name)
       (fun h => fmapTry VHoif (onReadHostOnlyInterface B h name)).

Definition readDHCP (B : Backend) (interface : value) : M value :=
  call (EReadDHCP interface) (fun h => onReadDHCP B h interface).

Definition addHostOnlyInterface (B : Backend) : M value :=
  call EAddHostOnlyInterface (onAddHostOnlyInterface B).

Definition configureHostOnlyInterface (B : Backend) (iface ip netmask : value) : M value :=
  call (EConfigureHostOnlyInterface iface ip netmask)
       (fun h => onConfigureHostOnlyInterface B h iface ip netmask).

Definition removeDHCP (B : Backend) (interface : value) : M value :=
  call (ERemoveDHCP interface) (fun h => onRemoveDHCP B h interface).

(** Modelled from the spec: [addDHCP(interfaceName, gateway, netmask,
    lowerIP, upperIP)].  It is called with the keywords of a dictionary;
    a missing or an unexpected keyword is a [TypeError]. *)
Definition addDHCP (B : Backend) (interface : value) (kw : gmap string value) : M value :=
  match kw !! "gateway", kw !! "netmask", kw !! "lowerIP", kw !! "upperIP" with
  | Some g, Some n, Some l, Some u =>
      if (size kw =? 4)%nat
      then call (EAddDHCP interface g n l u) (fun h => onAddDHCP B h interface g n l u)
      else raise TypeError
  | _, _, _, _ => raise TypeError
  end.

End Network.

Module Machine.

Definition start (B : Backend) (uuid : value) : M value :=
  call (EStart uuid) (fun h => onStart B h uuid).

Definition readMachineState (B : Backend) (uuid : value) : M value :=
  call (EReadMachineState uuid) (fun h => fmapTry VStr (onReadMachineState B h uuid)).

End Machine.

(** Modelled from the spec: the import functions of the [machine] module,
    [inspectOVF(path)], [makeImportParams(image, name, engineProfile)] and
    [importOVF(params, ovfFile, name)], each returning an Outcome.  The
    history keeps no record of their calls, so they are taken as
    computations of any kind. *)
Record ImportFunctions := mkImportFunctions {
  inspectOVF : value -> M value;
  makeImportParams : value -> value -> value -> M value;
  importOVF : value -> value -> value -> M value
}.

(** ** [netaddr]: IPv4 networks in CIDR notation

    The fragment of [netaddr] the driver uses, for IPv4: a network written
    as four decimal octets, a slash and a decimal prefix length.  Other
    spellings that [netaddr] understands are outside this embedding and are
    rejected here. *)
Module Netaddr.

Definition width : Z := 32.
Definition max_int : Z := 2 ^ width - 1.

Record IPNetwork := mkIPNetwork { net_value : Z; prefixlen : Z }.

Definition digit_of (c : ascii) : option Z :=
  let n := Z.of_nat (nat_of_ascii c) in
  if (48 <=? n) && (n <=? 57) then Some (n - 48) else None.

Fixpoint parse_digits (acc : Z) (s : string) : option Z :=
  match s with
  | EmptyString => Some acc
  | String c rest =>
      match digit_of c with
      | Some d => parse_digits (10 * acc + d) rest
      | None => None
      end
  end.

(** A decimal numeral without sign and without a leading zero. *)
Definition parse_decimal (s : string) : option Z :=
  match s with
  | EmptyString => None
  | String "0" (String _ _) => None
  | _ => parse_digits 0 s
  end.

Fixpoint split_on (sep : ascii) (s : string) : list string :=
  match s with
  | EmptyString => [EmptyString]
  | String c rest =>
      if Ascii.eqb c sep then EmptyString :: split_on sep rest
      else match split_on sep rest with
           | [] => [String c EmptyString]
           | hd :: tl => String c hd :: tl
           end
  end.

Definition parse_octet (s : string) : option Z :=
  match parse_decimal s with
  | Some n => if n <=? 255 then Some n else None
  | None => None
  end.

Definition str_to_int (addr : string) : option Z :=
  match split_on "." addr with
  | [a; b; c; d] =>
      match parse_octet a, parse_octet b, parse_octet c, parse_octet d with
      | Some a, Some b, Some c, Some d =>
          Some (Z.lor (Z.shiftl a 24) (Z.lor (Z.shiftl b 16) (Z.lor (Z.shiftl c 8) d)))
      | _, _, _, _ => None
      end
  | _ => None
  end.

(** [IPNetwork(addr)]: the address keeps its host bits; the prefix length
    must lie within the address width. *)
Definition parse_ip_network (addr : string) : option IPNetwork :=
  match split_on "/" addr with
  | [val1; val2] =>
      match str_to_int val1, parse_decimal val2 with
      | Some v, Some p => if p <=? width then Some (mkIPNetwork v p) else None
      | _, _ => None
      end
  | _ => None
  end.

Definition hostmask_int (n : IPNetwork) : Z := Z.shiftl 1 (width - prefixlen n) - 1.
Definition netmask_int (n : IPNetwork) : Z := Z.lxor max_int (hostmask_int n).
Definition first (n : IPNetwork) : Z := Z.land (net_value n) (Z.lxor max_int (hostmask_int n)).
Definition last (n : IPNetwork) : Z := Z.lor (net_value n) (hostmask_int n).
Definition size (n : IPNetwork) : Z := last n - first n + 1.

(** [net[index]]: the address at [index], counted from the end when the
    index is negative; [None] stands for the [IndexError]. *)
Definition getitem (n : IPNetwork) (index : Z) : option Z :=
  if (- size n <=? index) && (index <? 0) then Some (last n + index + 1)
  else if (0 <=? index) && (index <=? size n - 1) then Some (first n + index)
  else None.

Definition digit_char (d : Z) : ascii := ascii_of_nat (Z.to_nat (48 + d)).

Definition octet_str (n : Z) : string :=
  if n <? 10 then String (digit_char n) EmptyString
  else if n <? 100 then String (digit_char (n / 10)) (String (digit_char (n mod 10)) EmptyString)
  else String (digit_char (n / 100))
         (String (digit_char ((n / 10) mod 10)) (String (digit_char (n mod 10)) EmptyString)).

(** [IPAddress.format()]: dotted-quad notation. *)
Definition format (v : Z) : string :=
  octet_str (Z.land (Z.shiftr v 24) 255) +:+ "." +:+
  octet_str (Z.land (Z.shiftr v 16) 255) +:+ "." +:+
  octet_str (Z.land (Z.shiftr v 8) 255) +:+ "." +:+
  octet_str (Z.land v 255).

End Netaddr.

(** ** Small Python operations on values *)

(** [IPNetwork(v)] as the driver calls it, on whatever the configuration
    holds. *)
Definition IPNetwork (v : value) : M Netaddr.IPNetwork :=
  match v with
  | VStr s => match Netaddr.parse_ip_network s with
              | Some n => ret n
              | None => raise AddrFormatError
              end
  | _ => raise AddrFormatError
  end.

Definition getitem (n : Netaddr.IPNetwork) (index : Z) : M Z :=
  match Netaddr.getitem n index with
  | Some a => ret a
  | None => raise IndexError
  end.

(** [d[key]] *)
Definition subscript (d : value) (key : string) : M value :=
  match d with
  | VDict m => match m !! key with
               | Some v => ret v
               | None => raise KeyError
               end
  | _ => raise TypeError
  end.

(** [**d] in a call *)
Definition kwargs (d : value) : M (gmap string value) :=
  match d with
  | VDict m => ret m
  | _ => raise TypeError
  end.

(** [hoif.ip.format()] and [hoif.name] *)
Definition ip_format (hoif : value) : M string :=
  match hoif with
  | VHoif h => ret (Netaddr.format (hoif_ip h))
  | _ => raise AttributeError
  end.

Definition name_of (hoif : value) : M string :=
  match hoif with
  | VHoif h => ret (hoif_name h)
  | _ => raise AttributeError
  end.

Fixpoint for_each {A} (f : A -> M unit) (l : list A) : M unit :=
  match l with
  | [] => ret tt
  | x :: rest => f x ;;; for_each f rest
  end.

(** ** The driver: [VirtualBoxDriver] *)
Module VirtualBoxDriver.

Definition dquote : string := String (ascii_of_nat 34) EmptyString.

(* -- Configuration *)

Definition getDefaultConfig : list (string * value) :=
  [("network", VStr "172.21.21.0/24"); ("interface", VNone)].

Definition makeDefaultConfig (B : Backend) : M value :=
  log INFO ("Generating default virtualbox config in " +:+ Config.getConfigFile B) ;;;
  for_each (fun kv => Config.set (fst kv) (snd kv)) getDefaultConfig ;;;
  Config.saveConfig B.

Definition assertConfig (B : Backend) : M value :=
  r <- Config.loadConfigFile B ;;
  Monads.catchError r FileDoesNotExist (fun err => makeDefaultConfig B).

(* ---- Networking setup *)

Definition getNetworkInterface : M value := Config.get "interface" VNone.

Definition readNetworkConfig : M value :=
  network <- Config.get "network" VNone ;;
  netrange <- IPNetwork network ;;
  gateway <- getitem netrange 1 ;;
  let netmask := Netaddr.netmask_int netrange in
  lowerIP <- getitem netrange 2 ;;
  upperIP <- getitem netrange (-1) ;;
  let netconfig : gmap string value :=
    <["gateway" := VStr (Netaddr.format gateway)]>
    (<["netmask" := VStr (Netaddr.format netmask)]>
    (<["lowerIP" := VStr (Netaddr.format lowerIP)]>
    (<["upperIP" := VStr (Netaddr.format upperIP)]> ∅))) in
  ret (VTry (OK (VDict netconfig))).

(** The method ends without a [return]: the chain is evaluated and the
    caller receives [None]. *)
Definition provisionDHCP (B : Backend) (interface netconfig : value) : M value :=
  log INFO "Provisioning DHCP service for host only interface" ;;;
  r <- Network.removeDHCP B interface ;;
  r <- Monads.catch r (fun x => ret (VTry (OK interface))) ;;
  kw <- kwargs netconfig ;;
  Monads.bind r (fun carried => Network.addDHCP B carried kw) ;;;
  ret VNone.

Definition saveInterface (B : Backend) (iface : value) : M value :=
  Config.set "interface" iface ;;;
  Config.saveConfig B.

Definition provisionNetworking (B : Backend) (netconfig : value) : M value :=
  log INFO "Provisioning VirtualBox networking for substance" ;;;
  ifm <- Network.addHostOnlyInterface B ;;
  failed <- Monads.isFail ifm ;;
  if (failed : bool) then ret ifm
  else
    iface <- Monads.getOK ifm ;;
    ip <- subscript netconfig "gateway" ;;
    netmask <- subscript netconfig "netmask" ;;
    r <- Network.configureHostOnlyInterface B iface ip netmask ;;
    r <- Monads.then_ B r (provisionDHCP B iface netconfig) ;;
    r <- Monads.then_ B r (saveInterface B iface) ;;
    Monads.then_ B r (Network.readHostOnlyInterface B iface).

Definition assertNetworkConfiguration (B : Backend) (netparts : value) : M value :=
  match netparts with
  | VTuple [netconfig; hoif; dhcp] =>
      if negb (truthy hoif) then provisionNetworking B netconfig
      else
        actual <- ip_format hoif ;;
        gateway <- subscript netconfig "gateway" ;;
        if str_ne actual gateway then
          name <- name_of hoif ;;
          log WARN ("VirtualBox interface " +:+ dquote +:+ name +:+ dquote +:+
                    " is not properly configured. Creating a new host-only network.") ;;;
          provisionNetworking B netconfig
        else
          match dhcp with
          | VNone =>
              name <- name_of hoif ;;
              log WARN ("VirtualBox interface " +:+ dquote +:+ name +:+ dquote +:+
                        " does not have DHCP enabled. Re-Establishing now.") ;;;
              provisionDHCP B (VStr name) netconfig
          | _ => ret (VTry (OK hoif))
          end
  | VTuple _ => raise ValueError
  | _ => raise TypeError
  end.

Definition assertNetworking (B : Backend) : M value :=
  interface <- getNetworkInterface ;;
  netconfig <- readNetworkConfig ;;
  if truthy interface then
    r <- Network.readHostOnlyInterface B interface ;;
    hoif <- Monads.catchError r VirtualBoxObjectNotFound (fun err => ret (VTry (OK VNone))) ;;
    r <- Network.readDHCP B interface ;;
    dhcp <- Monads.catchError r VirtualBoxObjectNotFound (fun err => ret (VTry (OK VNone))) ;;
    netparts <- Monads.sequence [netconfig; hoif; dhcp] ;;
    Monads.bind netparts (assertNetworkConfiguration B)
  else
    provisionNetworking B netconfig.

(* ---- Machine API *)

(** [then] calls [inspectOVF] on the file alone; each [bind] passes the
    value carried so far as the first argument. *)
Definition importMachine (B : Backend) (machine : ImportFunctions)
    (name ovfFile engineProfile : value) : M value :=
  r <- assertConfig B ;;
  r <- Monads.then_ B r (inspectOVF machine ovfFile) ;;
  r <- Monads.bind r (fun image => makeImportParams machine image name engineProfile) ;;
  Monads.bind r (fun params => importOVF machine params ovfFile name).

Definition startMachine (B : Backend) (uuid : value) : M value :=
  r <- assertConfig B ;;
  r <- Monads.then_ B r (assertNetworking B) ;;
  Monads.then_ B r (Machine.start B uuid).

(* -- Parse results from Virtual Box *)

Definition mapping_entries : list (string * EngineStates) :=
  [ ("poweroff", STOPPED);
    ("saved", SUSPENDED);
    ("aborted", STOPPED);
    ("paused", STOPPED);
    ("stuck", STOPPED);
    ("restoring", STOPPED);
    ("snapshotting", STOPPED);
    ("setting up", STOPPED);
    ("online snapshotting", STOPPED);
    ("restoring snapshot", STOPPED);
    ("deleting snapshot", STOPPED);
    ("running", RUNNING);
    ("starting", RUNNING);
    ("stopping", RUNNING);
    ("saving", RUNNING);
    ("live snapshotting", RUNNING);
    ("unknown", UNKNOWN);
    ("inaccessible", INEXISTENT);
    ("inexistent", INEXISTENT) ].

Definition mapping : gmap string EngineStates := list_to_map mapping_entries.

(** [vboxState] is the status string the backend reported; [mapping.get]
    falls back to [UNKNOWN]. *)
Definition vboxStateToMachineState (vboxState : string) : M value :=
  let state := default UNKNOWN (mapping !! vboxState) in
  ddebug "Machine state: %s : %s" [VStr vboxState; VState state] ;;;
  ret (VTry (OK (VState state))).

(** The backend reports the state as a string, so the last branch of the
    function bound below is never taken. *)
Definition getMachineState (B : Backend) (uuid : value) : M value :=
  r <- Machine.readMachineState B uuid ;;
  Monads.bind r (fun v => match v with
                          | VStr s => vboxStateToMachineState s
                          | _ => raise TypeError
                          end).

(** A method that falls off its end returns [None]. *)
Definition isRunning (B : Backend) (uuid : value) : M value :=
  state <- getMachineState B uuid ;;
  if is_state state RUNNING then ret (VBool true) else ret VNone.

Definition isStopped (B : Backend) (uuid : value) : M value :=
  state <- getMachineState B uuid ;;
  if negb (is_state state RUNNING) then ret (VBool true) else ret VNone.

Definition isSuspended (B : Backend) (uuid : value) : M value :=
  state <- getMachineState B uuid ;;
  if is_state state SUSPENDED then ret (VBool true) else ret VNone.

End VirtualBoxDriver.

(** ** Scenarios used to exercise the statements *)
Module Scenarios.

Definition notFound : Error := mkError VirtualBoxObjectNotFound "object not found".
Definition fileMissing : Error := mkError FileDoesNotExist "virtualbox.yml".
Definition commandFailed : Error := mkError VirtualBoxError "VBoxManage failed".

Definition vboxnet0 : HostOnlyInterface :=
  mkHoif "vboxnet0" 2887062785 (* 172.21.21.1 *).

Definition savedConfig : gmap string value :=
  <["interface" := VStr "vboxnet0"]> (<["network" := VStr "172.21.21.0/24"]> ∅).

(** A healthy installation: every command succeeds, the configured
    interface exists with the gateway address and has a DHCP service.
    Here [then] hands an object that is not an Outcome on as it is. *)
Definition healthy : Backend :=
  {| configFile := "/home/user/.substance/virtualbox.yml";
     onLoadConfigFile := fun _ => OK savedConfig;
     onSaveConfig := fun _ _ => OK VNone;
     onReadHostOnlyInterface := fun _ _ => OK vboxnet0;
     onReadDHCP := fun _ _ => OK (VObj 1);
     onAddHostOnlyInterface := fun _ => OK (VStr "vboxnet1");
     onConfigureHostOnlyInterface := fun _ _ _ _ => OK VNone;
     onRemoveDHCP := fun _ interface => OK interface;
     onAddDHCP := fun _ _ _ _ _ _ => OK VNone;
     onStart := fun _ _ => OK VNone;
     onReadMachineState := fun _ _ => OK "running";
     onThenNonOutcome := fun _ r => Ret r |}.

(** First run: there is no configuration file yet. *)
Definition firstRun : Backend :=
  {| configFile := configFile healthy;
     onLoadConfigFile := fun _ => Fail fileMissing;
     onSaveConfig := onSaveConfig healthy;
     onReadHostOnlyInterface := onReadHostOnlyInterface healthy;
     onReadDHCP := onReadDHCP healthy;
     onAddHostOnlyInterface := onAddHostOnlyInterface healthy;
     onConfigureHostOnlyInterface := onConfigureHostOnlyInterface healthy;
     onRemoveDHCP := onRemoveDHCP healthy;
     onAddDHCP := onAddDHCP healthy;
     onStart := onStart healthy;
     onReadMachineState := onReadMachineState healthy;
     onThenNonOutcome := onThenNonOutcome healthy |}.

(** The configuration file cannot be read, for another reason. *)
Definition unreadable : Backend :=
  {| configFile := configFile healthy;
     onLoadConfigFile := fun _ => Fail commandFailed;
     onSaveConfig := onSaveConfig healthy;
     onReadHostOnlyInterface := onReadHostOnlyInterface healthy;
     onReadDHCP := onReadDHCP healthy;
     onAddHostOnlyInterface := onAddHostOnlyInterface healthy;
     onConfigureHostOnlyInterface := onConfigureHostOnlyInterface healthy;
     onRemoveDHCP := onRemoveDHCP healthy;
     onAddDHCP := onAddDHCP healthy;
     onStart := onStart healthy;
     onReadMachineState := onReadMachineState healthy;
     onThenNonOutcome := onThenNonOutcome healthy |}.

(** The configured interface was deleted behind the driver's back. *)
Definition interfaceGone : Backend :=
  {| configFile := configFile healthy;
     onLoadConfigFile := onLoadConfigFile healthy;
     onSaveConfig := onSaveConfig healthy;
     onReadHostOnlyInterface := fun _ _ => Fail notFound;
     onReadDHCP := onReadDHCP healthy;
     onAddHostOnlyInterface := onAddHostOnlyInterface healthy;
     onConfigureHostOnlyInterface := onConfigureHostOnlyInterface healthy;
     onRemoveDHCP := onRemoveDHCP healthy;
     onAddDHCP := onAddDHCP healthy;
     onStart := onStart healthy;
     onReadMachineState := onReadMachineState healthy;
     onThenNonOutcome := onThenNonOutcome healthy |}.

(** The configured interface is there, but its DHCP service is not. *)
Definition dhcpMissing : Backend :=
  {| configFile := configFile healthy;
     onLoadConfigFile := onLoadConfigFile healthy;
     onSaveConfig := onSaveConfig healthy;
     onReadHostOnlyInterface := onReadHostOnlyInterface healthy;
     onReadDHCP := fun _ _ => Fail notFound;
     onAddHostOnlyInterface := onAddHostOnlyInterface healthy;
     onConfigureHostOnlyInterface := onConfigureHostOnlyInterface healthy;
     onRemoveDHCP := onRemoveDHCP healthy;
     onAddDHCP := onAddDHCP healthy;
     onStart := onStart healthy;
     onReadMachineState := onReadMachineState healthy;
     onThenNonOutcome := onThenNonOutcome healthy |}.

(** The DHCP service cannot be queried, and the interface is gone. *)
Definition dhcpUnreadable : Backend :=
  {| configFile := configFile healthy;
     onLoadConfigFile := onLoadConfigFile healthy;
     onSaveConfig := onSaveConfig healthy;
     onReadHostOnlyInterface := onReadHostOnlyInterface healthy;
     onReadDHCP := fun _ _ => Fail commandFailed;
     onAddHostOnlyInterface := onAddHostOnlyInterface healthy;
     onConfigureHostOnlyInterface := onConfigureHostOnlyInterface healthy;
     onRemoveDHCP := onRemoveDHCP healthy;
     onAddDHCP := onAddDHCP healthy;
     onStart := onStart healthy;
     onReadMachineState := onReadMachineState healthy;
     onThenNonOutcome := onThenNonOutcome healthy |}.

(** The backend fails to remove a DHCP service, for a reason other than
    its absence. *)
Definition removalBroken : Backend :=
  {| configFile := configFile healthy;
     onLoadConfigFile := onLoadConfigFile healthy;
     onSaveConfig := onSaveConfig healthy;
     onReadHostOnlyInterface := onReadHostOnlyInterface healthy;
     onReadDHCP := onReadDHCP healthy;
     onAddHostOnlyInterface := onAddHostOnlyInterface healthy;
     onConfigureHostOnlyInterface := onConfigureHostOnlyInterface healthy;
     onRemoveDHCP := fun _ _ => Fail commandFailed;
     onAddDHCP := onAddDHCP healthy;
     onStart := onStart healthy;
     onReadMachineState := onReadMachineState healthy;
     onThenNonOutcome := onThenNonOutcome healthy |}.

(** The backend fails to report the interface, for a reason other than
    its absence. *)
Definition interfaceUnreadable : Backend :=
  {| configFile := configFile healthy;
     onLoadConfigFile := onLoadConfigFile healthy;
     onSaveConfig := onSaveConfig healthy;
     onReadHostOnlyInterface := fun _ _ => Fail commandFailed;
     onReadDHCP := onReadDHCP healthy;
     onAddHostOnlyInterface := onAddHostOnlyInterface healthy;
     onConfigureHostOnlyInterface := onConfigureHostOnlyInterface healthy;
     onRemoveDHCP := onRemoveDHCP healthy;
     onAddDHCP := onAddDHCP healthy;
     onStart := onStart healthy;
     onReadMachineState := onReadMachineState healthy;
     onThenNonOutcome := onThenNonOutcome healthy |}.

Definition desired : value :=
  VDict (<["gateway" := VStr "172.21.21.1"]>
        (<["netmask" := VStr "255.255.255.0"]>
        (<["lowerIP" := VStr "172.21.21.2"]>
        (<["upperIP" := VStr "172.21.21.255"]> ∅)))).

Definition emptyWorld : World := {| config := ∅; trace := [] |}.
Definition configured : World := {| config := savedConfig; trace := [] |}.

Definition timedOut : Error := mkError OtherError "timed out".

Definition strayInterface : HostOnlyInterface :=
  mkHoif "vboxnet0" 2887062789 (* 172.21.21.5 *).

(** The configured interface has another address than the gateway, and no
    DHCP service. *)
Definition drifted : Backend :=
  {| configFile := configFile healthy;
     onLoadConfigFile := onLoadConfigFile healthy;
     onSaveConfig := onSaveConfig healthy;
     onReadHostOnlyInterface := fun _ _ => OK strayInterface;
     onReadDHCP := fun _ _ => Fail notFound;
     onAddHostOnlyInterface := onAddHostOnlyInterface healthy;
     onConfigureHostOnlyInterface := onConfigureHostOnlyInterface healthy;
     onRemoveDHCP := onRemoveDHCP healthy;
     onAddDHCP := onAddDHCP healthy;
     onStart := onStart healthy;
     onReadMachineState := onReadMachineState healthy;
     onThenNonOutcome := onThenNonOutcome healthy |}.

(** Neither the interface nor its DHCP service can be queried. *)
Definition bothUnreadable : Backend :=
  {| configFile := configFile healthy;
     onLoadConfigFile := onLoadConfigFile healthy;
     onSaveConfig := onSaveConfig healthy;
     onReadHostOnlyInterface := fun _ _ => Fail commandFailed;
     onReadDHCP := fun _ _ => Fail timedOut;
     onAddHostOnlyInterface := onAddHostOnlyInterface healthy;
     onConfigureHostOnlyInterface := onConfigureHostOnlyInterface healthy;
     onRemoveDHCP := onRemoveDHCP healthy;
     onAddDHCP := onAddDHCP healthy;
     onStart := onStart healthy;
     onReadMachineState := onReadMachineState healthy;
     onThenNonOutcome := onThenNonOutcome healthy |}.

(** The backend cannot create host-only interfaces. *)
Definition addFails : Backend :=
  {| configFile := configFile healthy;
     onLoadConfigFile := onLoadConfigFile healthy;
     onSaveConfig := onSaveConfig healthy;
     onReadHostOnlyInterface := onReadHostOnlyInterface healthy;
     onReadDHCP := onReadDHCP healthy;
     onAddHostOnlyInterface := fun _ => Fail commandFailed;
     onConfigureHostOnlyInterface := onConfigureHostOnlyInterface healthy;
     onRemoveDHCP := onRemoveDHCP healthy;
     onAddDHCP := onAddDHCP healthy;
     onStart := onStart healthy;
     onReadMachineState := onReadMachineState healthy;
     onThenNonOutcome := onThenNonOutcome healthy |}.

(** The configuration file cannot be written. *)
Definition diskFull : Backend :=
  {| configFile := configFile healthy;
     onLoadConfigFile := onLoadConfigFile healthy;
     onSaveConfig := fun _ _ => Fail commandFailed;
     onReadHostOnlyInterface := onReadHostOnlyInterface healthy;
     onReadDHCP := onReadDHCP healthy;
     onAddHostOnlyInterface := onAddHostOnlyInterface healthy;
     onConfigureHostOnlyInterface := onConfigureHostOnlyInterface healthy;
     onRemoveDHCP := onRemoveDHCP healthy;
     onAddDHCP := onAddDHCP healthy;
     onStart := onStart healthy;
     onReadMachineState := onReadMachineState healthy;
     onThenNonOutcome := onThenNonOutcome healthy |}.

(** First run, and the configuration file cannot be written. *)
Definition firstRunDiskFull : Backend :=
  {| configFile := configFile healthy;
     onLoadConfigFile := fun _ => Fail fileMissing;
     onSaveConfig := fun _ _ => Fail commandFailed;
     onReadHostOnlyInterface := onReadHostOnlyInterface healthy;
     onReadDHCP := onReadDHCP healthy;
     onAddHostOnlyInterface := onAddHostOnlyInterface healthy;
     onConfigureHostOnlyInterface := onConfigureHostOnlyInterface healthy;
     onRemoveDHCP := onRemoveDHCP healthy;
     onAddDHCP := onAddDHCP healthy;
     onStart := onStart healthy;
     onReadMachineState := onReadMachineState healthy;
     onThenNonOutcome := onThenNonOutcome healthy |}.

(** A backend whose DHCP removal succeeds without a value. *)
Definition removalSilent : Backend :=
  {| configFile := configFile healthy;
     onLoadConfigFile := onLoadConfigFile healthy;
     onSaveConfig := onSaveConfig healthy;
     onReadHostOnlyInterface := onReadHostOnlyInterface healthy;
     onReadDHCP := onReadDHCP healthy;
     onAddHostOnlyInterface := onAddHostOnlyInterface healthy;
     onConfigureHostOnlyInterface := onConfigureHostOnlyInterface healthy;
     onRemoveDHCP := fun _ _ => OK VNone;
     onAddDHCP := onAddDHCP healthy;
     onStart := onStart healthy;
     onReadMachineState := onReadMachineState healthy;
     onThenNonOutcome := onThenNonOutcome healthy |}.

(** The backend cannot add a DHCP service. *)
Definition dhcpAddFails : Backend :=
  {| configFile := configFile healthy;
     onLoadConfigFile := onLoadConfigFile healthy;
     onSaveConfig := onSaveConfig healthy;
     onReadHostOnlyInterface := onReadHostOnlyInterface healthy;
     onReadDHCP := onReadDHCP healthy;
     onAddHostOnlyInterface := onAddHostOnlyInterface healthy;
     onConfigureHostOnlyInterface := onConfigureHostOnlyInterface healthy;
     onRemoveDHCP := onRemoveDHCP healthy;
     onAddDHCP := fun _ _ _ _ _ _ => Fail commandFailed;
     onStart := onStart healthy;
     onReadMachineState := onReadMachineState healthy;
     onThenNonOutcome := onThenNonOutcome healthy |}.

(** The backend cannot add a DHCP service, and [then] wraps an object that
    is not an Outcome in a Success. *)
Definition dhcpAddFailsWrapping : Backend :=
  {| configFile := configFile healthy;
     onLoadConfigFile := onLoadConfigFile healthy;
     onSaveConfig := onSaveConfig healthy;
     onReadHostOnlyInterface := onReadHostOnlyInterface healthy;
     onReadDHCP := onReadDHCP healthy;
     onAddHostOnlyInterface := onAddHostOnlyInterface healthy;
     onConfigureHostOnlyInterface := onConfigureHostOnlyInterface healthy;
     onRemoveDHCP := onRemoveDHCP healthy;
     onAddDHCP := fun _ _ _ _ _ _ => Fail commandFailed;
     onStart := onStart healthy;
     onReadMachineState := onReadMachineState healthy;
     onThenNonOutcome := fun _ r => Ret (VTry (OK r)) |}.

(** The DHCP service of the interface is missing, and [then] wraps an
    object that is not an Outcome in a Success. *)
Definition dhcpMissingWrapping : Backend :=
  {| configFile := configFile healthy;
     onLoadConfigFile := onLoadConfigFile healthy;
     onSaveConfig := onSaveConfig healthy;
     onReadHostOnlyInterface := onReadHostOnlyInterface healthy;
     onReadDHCP := fun _ _ => Fail notFound;
     onAddHostOnlyInterface := onAddHostOnlyInterface healthy;
     onConfigureHostOnlyInterface := onConfigureHostOnlyInterface healthy;
     onRemoveDHCP := onRemoveDHCP healthy;
     onAddDHCP := onAddDHCP healthy;
     onStart := onStart healthy;
     onReadMachineState := onReadMachineState healthy;
     onThenNonOutcome := fun _ r => Ret (VTry (OK r)) |}.

(** A configuration that names the network but no interface yet. *)
Definition unprovisioned : World :=
  {| config := <["network" := VStr "172.21.21.0/24"]> ∅; trace := [] |}.

(** A configuration whose network has two addresses only. *)
Definition pointToPoint : World :=
  {| config := <["interface" := VStr "vboxnet0"]> (<["network" := VStr "172.21.21.0/31"]> ∅);
     trace := [] |}.

(** Import functions that succeed, and ones that cannot read the image. *)
Definition importer : ImportFunctions :=
  {| inspectOVF := fun ovfFile => ret (VTry (OK (VTuple [VStr "image"; ovfFile])));
     makeImportParams := fun image name engineProfile =>
       ret (VTry (OK (VTuple [image; name; engineProfile])));
     importOVF := fun params ovfFile name => ret (VTry (OK name)) |}.

Definition brokenImage : ImportFunctions :=
  {| inspectOVF := fun _ => ret (VTry (Fail commandFailed));
     makeImportParams := makeImportParams importer;
     importOVF := importOVF importer |}.

End Scenarios.

(** ** Vocabulary of the statements *)

Import VirtualBoxDriver.

(** The configuration the driver holds after the defaults were written
    over it. *)
Definition with_defaults (c : gmap string value) : gmap string value :=
  <["interface" := VNone]> (<["network" := VStr "172.21.21.0/24"]> c).

Definition default_banner (B : Backend) : Event :=
  ELog INFO ("Generating default virtualbox config in " +:+ configFile B) [].

(** What a computation added to the history. *)
Definition events_since (w w' : World) : list Event :=
  drop (List.length (trace w)) (trace w').

(** The dictionary [readNetworkConfig] builds. *)
Definition netconfig_dict (gateway netmask lowerIP upperIP : string) : gmap string value :=
  <["gateway" := VStr gateway]>
  (<["netmask" := VStr netmask]>
  (<["lowerIP" := VStr lowerIP]>
  (<["upperIP" := VStr upperIP]> ∅))).

Definition dhcp_banner : Event :=
  ELog INFO "Provisioning DHCP service for host only interface" [].
Definition networking_banner : Event :=
  ELog INFO "Provisioning VirtualBox networking for substance" [].

(** What a typed recovery of "not found" leaves of an outcome. *)
Definition recover_absent (t : Try value) : Try value :=
  match t with
  | OK v => OK v
  | Fail e => if ErrorKind_eqb (err_kind e) VirtualBoxObjectNotFound then OK VNone else Fail e
  end.

(** The value that reaches the DHCP-add step after the removal step. *)
Definition carried_after_removal (interface : value) (removal : Try value) : value :=
  match removal with
  | OK v => v
  | Fail _ => interface
  end.

(** [w'] continues the history of [w] with events that all satisfy [P]. *)
Definition extends_by (P : Event -> Prop) (w w' : World) : Prop :=
  exists evs, trace w' = trace w ++ evs /\ Forall P evs.

(** A computation that only ever adds events satisfying [P]. *)
Definition emits_only {A} (P : Event -> Prop) (m : M A) : Prop :=
  forall w, extends_by P w (snd (m w)).

(** A computation whose result always satisfies [R]. *)
Definition returns {A} (R : Res A -> Prop) (m : M A) : Prop :=
  forall w, R (fst (m w)).

Definition is_start (ev : Event) : Prop :=
  match ev with EStart _ => True | _ => False end.

Definition is_save (ev : Event) : Prop :=
  match ev with ESaveConfig _ => True | _ => False end.

Definition touches_interface (ev : Event) : Prop :=
  match ev with
  | EAddHostOnlyInterface | EConfigureHostOnlyInterface _ _ _ => True
  | _ => False
  end.

Definition not_start (ev : Event) : Prop := ~ is_start ev.
Definition not_save (ev : Event) : Prop := ~ is_save ev.
Definition leaves_interface (ev : Event) : Prop := ~ touches_interface ev.

(** The number of host bits of a network, and its first address: the
    address with the host bits cleared. *)
Definition host_bits (n : Netaddr.IPNetwork) : Z := 32 - Netaddr.prefixlen n.
Definition network_base (n : Netaddr.IPNetwork) : Z :=
  Netaddr.net_value n - Netaddr.net_value n mod 2 ^ host_bits n.

(** A computation that neither reads nor changes the world. *)
Definition constant {A} (m : M A) : Prop :=
  exists r, forall w, m w = (r, w).

Definition dhcp_warning (name : string) : Event :=
  ELog WARN ("VirtualBox interface " +:+ dquote +:+ name +:+ dquote +:+
             " does not have DHCP enabled. Re-Establishing now.") [].

Definition is_add_dhcp (ev : Event) : Prop :=
  match ev with EAddDHCP _ _ _ _ _ => True | _ => False end.

(** The reading of "only a not-found failure of the removal is recovered":
    after a removal that failed for another reason, the DHCP-add step is
    not reached. *)
Definition removal_recovery_is_typed : Prop :=
  forall (B : Backend) (i nc : value) (w : World) (e : Error),
    onRemoveDHCP B (trace w ++ [dhcp_banner]) i = Fail e ->
    err_kind e <> VirtualBoxObjectNotFound ->
    Forall (fun ev => ~ is_add_dhcp ev) (events_since w (snd (provisionDHCP B i nc w))).

Definition misconfigured_warning (name : string) : Event :=
  ELog WARN ("VirtualBox interface " +:+ dquote +:+ name +:+ dquote +:+
             " is not properly configured. Creating a new host-only network.") [].

(** The world after the two reads that [assertNetworking] makes when an
    interface name is on record. *)
Definition after_reads (w : World) (i : value) : World :=
  {| config := config w;
     trace := (trace w ++ [EReadHostOnlyInterface i]) ++ [EReadDHCP i] |}.

(** The final world [w'] of a run from [w]: either the configuration is
    unchanged and nothing was saved, or a host-only interface was added, the
    configuration differs by the interface key alone and that configuration
    was passed to saveConfig in the run. *)
Definition kept_or_saved (w w' : World) : Prop :=
  exists evs,
    trace w' = trace w ++ evs
    /\ ((config w' = config w /\ Forall not_save evs)
        \/ (exists iface,
              config w' = <["interface" := iface]> (config w)
              /\ ESaveConfig (config w') ∈ evs
              /\ EAddHostOnlyInterface ∈ evs)).

(** A result that is an Outcome whenever it is a value. *)
Definition outcome_or_raise (r : Res value) : Prop :=
  forall v, r = Ret v -> exists t, v = VTry t.

(** The state in which only the DHCP service has to be repaired: the
    interface [i] on record exists as [hoif], its address is the desired
    gateway, and no DHCP service is observed for it. *)
Definition needs_dhcp_repair (B : Backend) (w : World) (i : value)
    (hoif : HostOnlyInterface) : Prop :=
  config w !! "interface" = Some i
  /\ truthy i = true
  /\ onReadHostOnlyInterface B (trace w) i = OK hoif
  /\ (exists g n l u,
        fst (readNetworkConfig w) = Ret (VTry (OK (VDict (netconfig_dict g n l u))))
        /\ Netaddr.format (hoif_ip hoif) = g)
  /\ recover_absent (onReadDHCP B (trace w ++ [EReadHostOnlyInterface i]) i) = OK VNone.

(** A string without a dot, and the check that an octet survives being
    printed and parsed again. *)
Fixpoint no_dot (s : string) : bool :=
  match s with
  | EmptyString => true
  | String c rest => negb (Ascii.eqb c ".") && no_dot rest
  end.

Definition octet_ok (k : nat) : bool :=
  let n := Z.of_nat k in
  no_dot (Netaddr.octet_str n)
  && match Netaddr.parse_octet (Netaddr.octet_str n) with
     | Some m => m =? n
     | None => false
     end.

(** What a [then] whose receiver carries [v] hands on of the result of its
    function. *)
Definition after_networking (B : Backend) (v : value) (r : Res value) : Res value :=
  match r with
  | Ret (VTry t) => Ret (VTry t)
  | Ret other => onThenNonOutcome B v other
  | Raise x => Raise x
  end.

(** The last two steps of the provisioning path, from the world [w]: the
    interface name is set and saved, and the interface is read back. *)
Definition save_and_read (B : Backend) (iface : value) (w : World) : Res value * World :=
  let c := <["interface" := iface]> (config w) in
  let h := trace w ++ [ESaveConfig c] in
  match onSaveConfig B (trace w) c with
  | Fail e => (Ret (VTry (Fail e)), {| config := c; trace := h |})
  | OK _ =>
      (Ret (VTry (fmapTry VHoif (onReadHostOnlyInterface B h iface))),
       {| config := c; trace := h ++ [EReadHostOnlyInterface iface] |})
  end.

(** * Properties *)

(** ** The state translator *)

Lemma mbind_eval {A C} (m : M A) (k : A -> M C) (w w' : World) (a : A) :
  m w = (Ret a, w') -> mbind m k w = k a w'.
Proof. intros H. unfold mbind. rewrite H. reflexivity. Qed.

Lemma mbind_raise {A C} (m : M A) (k : A -> M C) (w w' : World) (x : Exn) :
  m w = (Raise x, w') -> mbind m k w = (Raise x, w').
Proof. intros H. unfold mbind. rewrite H. reflexivity. Qed.

Lemma call_outcome (ev : Event) answer (w : World) :
  call ev answer w = (Ret (VTry (answer (trace w))),
                      {| config := config w; trace := trace w ++ [ev] |}).
Proof. reflexivity. Qed.

Lemma mapping_lookup_absent (s : string) :
  s ∉ mapping_entries.*1 -> mapping !! s = None.
Proof. intros Hs. unfold mapping. by apply not_elem_of_list_to_map_1. Qed.

(** C8: the state translator never fails: on every status string it returns
    Success of an engine state and only writes a debug line; "poweroff" gives
    STOPPED, "running" RUNNING, "saved" SUSPENDED, "inaccessible" and
    "inexistent" INEXISTENT, "starting" and "stopping" RUNNING, and every
    string that is not a key of the table gives UNKNOWN. *)
Theorem vboxStateToMachineState_table :
  (forall s w, exists st,
      vboxStateToMachineState s w =
        (Ret (VTry (OK (VState st))),
         {| config := config w;
            trace := trace w ++ [ELog DEBUG "Machine state: %s : %s" [VStr s; VState st]] |}))
  /\ (forall w, fst (vboxStateToMachineState "poweroff" w) = Ret (VTry (OK (VState STOPPED))))
  /\ (forall w, fst (vboxStateToMachineState "running" w) = Ret (VTry (OK (VState RUNNING))))
  /\ (forall w, fst (vboxStateToMachineState "saved" w) = Ret (VTry (OK (VState SUSPENDED))))
  /\ (forall w, fst (vboxStateToMachineState "inaccessible" w) = Ret (VTry (OK (VState INEXISTENT))))
  /\ (forall w, fst (vboxStateToMachineState "inexistent" w) = Ret (VTry (OK (VState INEXISTENT))))
  /\ (forall w, fst (vboxStateToMachineState "starting" w) = Ret (VTry (OK (VState RUNNING))))
  /\ (forall w, fst (vboxStateToMachineState "stopping" w) = Ret (VTry (OK (VState RUNNING))))
  /\ (forall s w, s ∉ mapping_entries.*1 ->
        fst (vboxStateToMachineState s w) = Ret (VTry (OK (VState UNKNOWN)))).
Proof.
  split.
  { intros s w. exists (default UNKNOWN (mapping !! s)). reflexivity. }
  repeat split; try (intros w; reflexivity).
  intros s w Hs. unfold vboxStateToMachineState.
  rewrite (mapping_lookup_absent s Hs). reflexivity.
Qed.

Lemma vboxStateToMachineState_table_witness :
("some-unlisted-status" ∉ mapping_entries.*1)
  /\ fst (vboxStateToMachineState "some-unlisted-status" Scenarios.emptyWorld)
     = Ret (VTry (OK (VState UNKNOWN))).
Proof.
  assert (H : "some-unlisted-status" ∉ mapping_entries.*1).
  { apply (bool_decide_unpack _). vm_compute. exact I. }
  split; [exact H |].
  apply (proj2 (proj2 (proj2 (proj2 (proj2 (proj2 (proj2 (proj2
           vboxStateToMachineState_table))))))) _ _ H).
Defined.

(** ** The state predicates *)

Lemma vboxStateToMachineState_eq (s : string) (w : World) :
  vboxStateToMachineState s w =
    (Ret (VTry (OK (VState (default UNKNOWN (mapping !! s))))),
     {| config := config w;
        trace := trace w ++ [ELog DEBUG "Machine state: %s : %s"
                               [VStr s; VState (default UNKNOWN (mapping !! s))]] |}).
Proof. reflexivity. Qed.

Lemma getMachineState_eq (B : Backend) (uuid : value) (w : World) :
  fst (getMachineState B uuid w) =
    Ret (VTry (fmapTry (fun s => VState (default UNKNOWN (mapping !! s)))
                       (onReadMachineState B (trace w) uuid))).
Proof.
  unfold getMachineState, Machine.readMachineState, mbind.
  rewrite call_outcome.
  destruct (onReadMachineState B (trace w) uuid) as [s | e]; cbn [fmapTry Monads.bind].
  - rewrite vboxStateToMachineState_eq. reflexivity.
  - reflexivity.
Qed.

Lemma is_state_outcome (t : Try value) (s : EngineStates) : is_state (VTry t) s = false.
Proof. reflexivity. Qed.

(** C10: getMachineState returns an outcome object (Success of the
    translated state, or the backend's Failure), the predicates compare that
    object itself with the members of EngineStates, and so, for every
    machine and whatever the backend reports, isRunning and isSuspended
    return None and isStopped returns True. *)
Theorem state_predicates_ignore_state (B : Backend) (uuid : value) (w : World) :
  (fst (getMachineState B uuid w) =
     Ret (VTry (fmapTry (fun s => VState (default UNKNOWN (mapping !! s)))
                        (onReadMachineState B (trace w) uuid))))
  /\ fst (isRunning B uuid w) = Ret VNone
  /\ fst (isStopped B uuid w) = Ret (VBool true)
  /\ fst (isSuspended B uuid w) = Ret VNone.
Proof.
  pose proof (getMachineState_eq B uuid w) as Ht.
  split; [exact Ht |].
  unfold isRunning, isStopped, isSuspended, mbind.
  destruct (getMachineState B uuid w) as [r w'].
  cbn [fst] in Ht. subst r.
  rewrite !is_state_outcome. repeat split.
Qed.

(** ** Configuration bootstrap *)

(** C9: assertConfig loads the persisted configuration.  A successful load
    is returned as it is; a load that fails because the file does not exist
    makes the driver set network to 172.21.21.0/24 and interface to None,
    persist that configuration and return the Outcome of the save; any other
    load failure is returned unchanged, and nothing is set or saved. *)
Theorem assertConfig_cases (B : Backend) (w : World) :
  (forall stored, onLoadConfigFile B (trace w) = OK stored ->
     assertConfig B w =
       (Ret (VTry (OK VConfig)),
        {| config := stored; trace := trace w ++ [ELoadConfigFile] |}))
  /\ (forall e, onLoadConfigFile B (trace w) = Fail e ->
      err_kind e = FileDoesNotExist ->
      let c := with_defaults (config w) in
      let h := (trace w ++ [ELoadConfigFile]) ++ [default_banner B] in
      assertConfig B w =
        (Ret (VTry (onSaveConfig B h c)),
         {| config := c; trace := h ++ [ESaveConfig c] |})
      /\ c !! "network" = Some (VStr "172.21.21.0/24")
      /\ c !! "interface" = Some VNone)
  /\ (forall e, onLoadConfigFile B (trace w) = Fail e ->
      err_kind e <> FileDoesNotExist ->
      assertConfig B w =
        (Ret (VTry (Fail e)),
         {| config := config w; trace := trace w ++ [ELoadConfigFile] |})).
Proof.
  unfold assertConfig, Config.loadConfigFile, mbind.
  repeat split.
  - intros stored H. rewrite H. reflexivity.
  - rewrite H. simpl. rewrite H0. reflexivity.
  - unfold with_defaults. rewrite lookup_insert_ne by discriminate.
    apply lookup_insert_eq.
  - unfold with_defaults. apply lookup_insert_eq.
  - intros e H Hk. rewrite H. simpl.
    destruct (err_kind e); try reflexivity. contradiction.
Qed.

Lemma assertConfig_cases_witness :
  fst (assertConfig Scenarios.healthy Scenarios.emptyWorld) = Ret (VTry (OK VConfig))
  /\ fst (assertConfig Scenarios.firstRun Scenarios.emptyWorld) = Ret (VTry (OK VNone))
  /\ fst (assertConfig Scenarios.unreadable Scenarios.emptyWorld)
     = Ret (VTry (Fail Scenarios.commandFailed)).
Proof.
  split; [| split].
  - rewrite (proj1 (assertConfig_cases Scenarios.healthy Scenarios.emptyWorld)
               Scenarios.savedConfig eq_refl).
    reflexivity.
  - destruct (proj1 (proj2 (assertConfig_cases Scenarios.firstRun Scenarios.emptyWorld))
                Scenarios.fileMissing eq_refl eq_refl) as [H _].
    rewrite H. reflexivity.
  - rewrite (proj2 (proj2 (assertConfig_cases Scenarios.unreadable Scenarios.emptyWorld))
               Scenarios.commandFailed eq_refl ltac:(discriminate)).
    reflexivity.
Defined.

(** ** DHCP provisioning *)

Lemma netconfig_dict_size g n l u : size (netconfig_dict g n l u) = 4%nat.
Proof. reflexivity. Qed.

Lemma addDHCP_netconfig_dict (B : Backend) (c : value) (g n l u : string) (w : World) :
  Network.addDHCP B c (netconfig_dict g n l u) w =
    (Ret (VTry (onAddDHCP B (trace w) c (VStr g) (VStr n) (VStr l) (VStr u))),
     {| config := config w;
        trace := trace w ++ [EAddDHCP c (VStr g) (VStr n) (VStr l) (VStr u)] |}).
Proof. reflexivity. Qed.

(** The whole effect of the DHCP provisioning on the dictionary that
    [readNetworkConfig] builds: a banner, the removal, and the add step on
    the value that the removal (or its recovery) carries. *)
Lemma provisionDHCP_steps (B : Backend) (i : value) (g n l u : string) (w : World) :
  let h := trace w ++ [dhcp_banner] in
  let c := carried_after_removal i (onRemoveDHCP B h i) in
  provisionDHCP B i (VDict (netconfig_dict g n l u)) w =
    (Ret VNone,
     {| config := config w;
        trace := ((h ++ [ERemoveDHCP i]) ++ [EAddDHCP c (VStr g) (VStr n) (VStr l) (VStr u)]) |}).
Proof.
  cbv zeta. unfold provisionDHCP, Network.removeDHCP, call, log, history, emit, mbind, ret.
  simpl. unfold dhcp_banner.
  destruct (onRemoveDHCP B _ i) as [v | e]; simpl; rewrite addDHCP_netconfig_dict; reflexivity.
Qed.

(** *** Reasoning about computations: results and histories *)

Section Framing.

Context {A : Type}.

Lemma returns_ret (R : Res A -> Prop) (a : A) : R (Ret a) -> returns R (ret a).
Proof. intros H w. exact H. Qed.

Lemma returns_bind {C} (R : Res A -> Prop) (m : M C) (k : C -> M A) :
  (forall x, R (Raise x)) -> (forall c, returns R (k c)) -> returns R (mbind m k).
Proof.
  intros Hx Hk w. unfold mbind. destruct (m w) as [[c | x] w']; simpl.
  - apply Hk.
  - apply Hx.
Qed.

Lemma emits_only_ret (P : Event -> Prop) (a : A) : emits_only P (ret a).
Proof. intros w. exists []. simpl. rewrite app_nil_r. split; [reflexivity | constructor]. Qed.

Lemma emits_only_raise (P : Event -> Prop) (x : Exn) : emits_only P (raise (A := A) x).
Proof. intros w. exists []. simpl. rewrite app_nil_r. split; [reflexivity | constructor]. Qed.

Lemma emits_only_bind {C} (P : Event -> Prop) (m : M C) (k : C -> M A) :
  emits_only P m -> (forall c, emits_only P (k c)) -> emits_only P (mbind m k).
Proof.
  intros Hm Hk w. unfold mbind. destruct (Hm w) as (evs & Ht & Hp).
  destruct (m w) as [[c | x] w']; simpl in *.
  - destruct (Hk c w') as (evs' & Ht' & Hp').
    exists (evs ++ evs'). rewrite Ht', Ht, app_assoc. split; [reflexivity |].
    apply Forall_app; auto.
  - exists evs. auto.
Qed.

End Framing.

Lemma emits_only_emit (P : Event -> Prop) (ev : Event) : P ev -> emits_only P (emit ev).
Proof. intros H w. exists [ev]. split; [reflexivity | repeat constructor; exact H]. Qed.

Lemma emits_only_history (P : Event -> Prop) : emits_only P history.
Proof. intros w. exists []. simpl. rewrite app_nil_r. split; [reflexivity | constructor]. Qed.

Lemma emits_only_call (P : Event -> Prop) (ev : Event) answer :
  P ev -> emits_only P (call ev answer).
Proof.
  intros H. unfold call. apply emits_only_bind; [apply emits_only_history |].
  intros h. apply emits_only_bind; [apply emits_only_emit; exact H |].
  intros _. apply emits_only_ret.
Qed.



(** The outcome combinators add nothing of their own: case analysis on the
    receiver of the method. *)
Ltac by_receiver r :=
  destruct r as [| | | | | | | | | [? | ?]]; simpl;
  try (apply emits_only_raise || apply emits_only_ret);
  auto.

Lemma emits_only_pure_res {A} (P : Event -> Prop) (r : Res A) : emits_only P (pure_res r).
Proof. intros w. exists []. simpl. rewrite app_nil_r. split; [reflexivity | constructor]. Qed.

Lemma emits_only_then (P : Event -> Prop) (B : Backend) (r : value) (f : M value) :
  emits_only P f -> emits_only P (Monads.then_ B r f).
Proof.
  intros H. by_receiver r.
  apply emits_only_bind; [exact H |].
  intros c. destruct c; apply emits_only_ret || apply emits_only_pure_res.
Qed.

Lemma emits_only_monads_bind (P : Event -> Prop) (r : value) (f : value -> M value) :
  (forall v, emits_only P (f v)) -> emits_only P (Monads.bind r f).
Proof. intros H. by_receiver r. Qed.

Lemma emits_only_catch (P : Event -> Prop) (r : value) (f : Error -> M value) :
  (forall e, emits_only P (f e)) -> emits_only P (Monads.catch r f).
Proof. intros H. by_receiver r. Qed.

Lemma emits_only_catchError (P : Event -> Prop) (r : value) k (f : Error -> M value) :
  (forall e, emits_only P (f e)) -> emits_only P (Monads.catchError r k f).
Proof.
  intros H. by_receiver r.
  destruct (ErrorKind_eqb _ _); [apply H | apply emits_only_ret].
Qed.

Lemma emits_only_isFail (P : Event -> Prop) (r : value) : emits_only P (Monads.isFail r).
Proof. by_receiver r. Qed.

Lemma emits_only_getOK (P : Event -> Prop) (r : value) : emits_only P (Monads.getOK r).
Proof. by_receiver r. Qed.

Lemma emits_only_sequence (P : Event -> Prop) (l : list value) :
  emits_only P (Monads.sequence l).
Proof.
  intros w. exists []. simpl. rewrite app_nil_r. split; [reflexivity | constructor].
Qed.

Lemma emits_only_config_get (P : Event -> Prop) key dflt : emits_only P (Config.get key dflt).
Proof. intros w. exists []. simpl. rewrite app_nil_r. split; [reflexivity | constructor]. Qed.

Lemma emits_only_config_set (P : Event -> Prop) key v : emits_only P (Config.set key v).
Proof. intros w. exists []. simpl. rewrite app_nil_r. split; [reflexivity | constructor]. Qed.

Lemma emits_only_saveConfig (P : Event -> Prop) (B : Backend) :
  (forall c, P (ESaveConfig c)) -> emits_only P (Config.saveConfig B).
Proof. intros H w. exists [ESaveConfig (config w)]. split; [reflexivity | repeat constructor; apply H]. Qed.

Lemma emits_only_loadConfigFile (P : Event -> Prop) (B : Backend) :
  P ELoadConfigFile -> emits_only P (Config.loadConfigFile B).
Proof.
  intros H w. exists [ELoadConfigFile]. unfold Config.loadConfigFile.
  destruct (onLoadConfigFile B (trace w)); (split; [reflexivity | repeat constructor; exact H]).
Qed.

Lemma emits_only_for_each {A} (P : Event -> Prop) (f : A -> M unit) (l : list A) :
  (forall a, emits_only P (f a)) -> emits_only P (for_each f l).
Proof.
  intros H. induction l as [| a l IH]; simpl.
  - apply emits_only_ret.
  - apply emits_only_bind; [apply H | intros _; exact IH].
Qed.

(** Decomposes a goal [emits_only P m] along the structure of [m]; what is
    left are the obligations [P ev] for the events that [m] can emit. *)
Ltac frame_step :=
  lazymatch goal with
  | |- emits_only _ (ret _) => apply emits_only_ret
  | |- emits_only _ (raise _) => apply emits_only_raise
  | |- emits_only _ (emit _) => apply emits_only_emit
  | |- emits_only _ (log _ _) => apply emits_only_emit
  | |- emits_only _ (call _ _) => apply emits_only_call
  | |- emits_only _ (Config.get _ _) => apply emits_only_config_get
  | |- emits_only _ (Config.set _ _) => apply emits_only_config_set
  | |- emits_only _ (Config.saveConfig _) => apply emits_only_saveConfig; intros ?
  | |- emits_only _ (Config.loadConfigFile _) => apply emits_only_loadConfigFile
  | |- emits_only _ (Monads.isFail _) => apply emits_only_isFail
  | |- emits_only _ (Monads.getOK _) => apply emits_only_getOK
  | |- emits_only _ (Monads.sequence _) => apply emits_only_sequence
  | |- emits_only _ (for_each _ _) => apply emits_only_for_each; intros ?
  | |- emits_only _ (Monads.then_ _ _ _) => apply emits_only_then
  | |- emits_only _ (Monads.bind _ _) => apply emits_only_monads_bind; intros ?
  | |- emits_only _ (Monads.catch _ _) => apply emits_only_catch; intros ?
  | |- emits_only _ (Monads.catchError _ _ _) => apply emits_only_catchError; intros ?
  | |- emits_only _ (mbind _ _) => apply emits_only_bind; [| intros ?]
  | |- emits_only _ (if ?b then _ else _) => destruct b
  | |- emits_only _ (match ?x with _ => _ end) => destruct x
  end.

Ltac frame := cbv zeta; repeat frame_step.







(** ** Starting a machine *)


Lemma events_since_app (w : World) (evs : list Event) (c : gmap string value) :
  events_since w {| config := c; trace := trace w ++ evs |} = evs.
Proof. unfold events_since. simpl. apply drop_app_length. Qed.


(** What [then] makes of the result of its function, on a Success. *)
Lemma then_on_success (B : Backend) (v : value) (f : M value) (w : World) :
  Monads.then_ B (VTry (OK v)) f w =
    match f w with
    | (Ret (VTry t), w') => (Ret (VTry t), w')
    | (Ret r, w') => (onThenNonOutcome B v r, w')
    | (Raise x, w') => (Raise x, w')
    end.
Proof.
  cbn [Monads.then_]. unfold mbind. destruct (f w) as [[r | x] w']; [| reflexivity].
  destruct r; reflexivity.
Qed.

(** What the following [then] makes of its receiver, for a function that
    returns an Outcome. *)
Lemma then_outcome (B : Backend) (r : value) (f : M value) (w : World) :
  (forall w0, exists t, fst (f w0) = Ret (VTry t)) ->
  Monads.then_ B r f w =
    match r with
    | VTry (OK _) => f w
    | VTry (Fail e) => (Ret (VTry (Fail e)), w)
    | _ => (Raise AttributeError, w)
    end.
Proof.
  intros Hf. destruct r as [| | | | | | | | | [v | e]]; try reflexivity.
  rewrite then_on_success. destruct (Hf w) as [t Ht].
  destruct (f w) as [r' w']. cbn [fst] in Ht. subst r'. reflexivity.
Qed.

Lemma start_outcome (B : Backend) (uuid : value) (w0 : World) :
  exists t, fst (Machine.start B uuid w0) = Ret (VTry t).
Proof. unfold Machine.start. rewrite call_outcome. eexists. reflexivity. Qed.

Lemma startMachine_unfold (B : Backend) (uuid : value) (w : World) :
  startMachine B uuid w =
    match assertConfig B w with
    | (Ret (VTry (OK v)), w1) =>
        match after_networking B v (fst (assertNetworking B w1)) with
        | Ret (VTry (OK _)) => Machine.start B uuid (snd (assertNetworking B w1))
        | Ret (VTry (Fail e)) => (Ret (VTry (Fail e)), snd (assertNetworking B w1))
        | Ret _ => (Raise AttributeError, snd (assertNetworking B w1))
        | Raise x => (Raise x, snd (assertNetworking B w1))
        end
    | (Ret (VTry (Fail e)), w1) => (Ret (VTry (Fail e)), w1)
    | (Ret _, w1) => (Raise AttributeError, w1)
    | (Raise x, w1) => (Raise x, w1)
    end.
Proof.
  unfold startMachine.
  destruct (assertConfig B w) as [r1 w1] eqn:E1.
  destruct r1 as [r1 | x1]; [| rewrite (mbind_raise _ _ w w1 x1 E1); reflexivity].
  rewrite (mbind_eval _ _ w w1 r1 E1).
  destruct r1 as [| | | | | | | | | [v | e]]; try reflexivity.
  unfold mbind at 1. rewrite then_on_success.
  destruct (assertNetworking B w1) as [r2 w2]. cbn [fst snd].
  assert (Hlast : forall r w0,
            Monads.then_ B r (Machine.start B uuid) w0 =
              match r with
              | VTry (OK _) => Machine.start B uuid w0
              | VTry (Fail e) => (Ret (VTry (Fail e)), w0)
              | _ => (Raise AttributeError, w0)
              end).
  { intros r w0. apply then_outcome. intros w'. apply start_outcome. }
  destruct r2 as [r2 | x2]; [| reflexivity].
  destruct r2 as [| | | | | | | | | t2]; cbn [after_networking];
    try (destruct (onThenNonOutcome B _ _) as [r3 | x3]; [| reflexivity];
         rewrite Hlast; destruct r3 as [| | | | | | | | | [v3 | e3]]; reflexivity).
  rewrite Hlast. destruct t2; reflexivity.
Qed.



(** ** The desired network configuration *)

Lemma pure_bind {A C} (m : M C) (k : C -> M A) :
  (forall w, snd (m w) = w) -> (forall c w, snd (k c w) = w) ->
  forall w, snd (mbind m k w) = w.
Proof.
  intros Hm Hk w. unfold mbind. specialize (Hm w).
  destruct (m w) as [[c | x] w']; simpl in *; subst; auto.
Qed.

Lemma IPNetwork_pure v w : snd (IPNetwork v w) = w.
Proof.
  unfold IPNetwork. destruct v; try reflexivity.
  destruct (Netaddr.parse_ip_network s); reflexivity.
Qed.

Lemma getitem_pure n i w : snd (getitem n i w) = w.
Proof. unfold getitem. destruct (Netaddr.getitem n i); reflexivity. Qed.

Lemma readNetworkConfig_pure (w : World) : snd (readNetworkConfig w) = w.
Proof.
  revert w. unfold readNetworkConfig. cbv zeta.
  apply pure_bind; [reflexivity | intros network].
  apply pure_bind; [apply IPNetwork_pure | intros netrange].
  apply pure_bind; [apply getitem_pure | intros gateway].
  apply pure_bind; [apply getitem_pure | intros lowerIP].
  apply pure_bind; [apply getitem_pure | intros upperIP].
  reflexivity.
Qed.

(** *** Arithmetic of the network masks *)

Lemma hostmask_ones (h : Z) : Z.shiftl 1 h - 1 = Z.ones h.
Proof. rewrite Z.shiftl_1_l, Z.ones_equiv. lia. Qed.

Lemma max_int_ones : Netaddr.max_int = Z.ones 32.
Proof. reflexivity. Qed.

Lemma netmask_disjoint (h : Z) :
  0 <= h <= 32 -> Z.land (Z.lxor (Z.ones 32) (Z.ones h)) (Z.ones h) = 0.
Proof.
  intros Hh. apply Z.bits_inj'. intros i Hi.
  rewrite Z.land_spec, Z.lxor_spec, !Z.testbit_ones_nonneg, Z.bits_0 by lia.
  destruct (Z.ltb_spec i h), (Z.ltb_spec i 32); simpl; try reflexivity; lia.
Qed.

Lemma netmask_arith (h : Z) :
  0 <= h <= 32 -> Z.lxor (Z.ones 32) (Z.ones h) = 2 ^ 32 - 2 ^ h.
Proof.
  intros Hh.
  assert (Hland : Z.land (Z.ones 32) (Z.ones h) = Z.ones h).
  { rewrite Z.land_comm, Z.land_ones by lia. apply Z.mod_small.
    rewrite Z.ones_equiv. assert (2 ^ h <= 2 ^ 32) by (apply Z.pow_le_mono_r; lia).
    assert (0 < 2 ^ h) by (apply Z.pow_pos_nonneg; lia). lia. }
  pose proof (Z.sub_lor_land (Z.ones 32) (Z.ones h)) as Hx.
  pose proof (Z.add_lor_land (Z.ones 32) (Z.ones h)) as Ha.
  rewrite Hland in Hx, Ha. rewrite <- Hx. rewrite !Z.ones_equiv in *. lia.
Qed.

Lemma first_arith (v h : Z) :
  0 <= v < 2 ^ 32 -> 0 <= h <= 32 ->
  Z.land v (Z.lxor (Z.ones 32) (Z.ones h)) = v - v mod 2 ^ h.
Proof.
  intros Hv Hh.
  set (m := Z.lxor (Z.ones 32) (Z.ones h)).
  assert (Hsplit : Z.lor m (Z.ones h) = Z.ones 32).
  { pose proof (Z.add_lor_land m (Z.ones h)) as Ha.
    unfold m in Ha at 2. rewrite netmask_disjoint in Ha by lia.
    unfold m in Ha at 2. rewrite netmask_arith in Ha by lia.
    rewrite !Z.ones_equiv in *. lia. }
  assert (Hv32 : Z.land v (Z.ones 32) = v).
  { rewrite Z.land_ones by lia. apply Z.mod_small. lia. }
  rewrite <- Hsplit, Z.land_lor_distr_r in Hv32.
  pose proof (Z.add_lor_land (Z.land v m) (Z.land v (Z.ones h))) as Ha.
  assert (Hd : Z.land (Z.land v m) (Z.land v (Z.ones h)) = 0).
  { apply Z.bits_inj'. intros i Hi.
    pose proof (f_equal (fun z => Z.testbit z i) (netmask_disjoint h Hh)) as Hb.
    cbv beta in Hb. fold m in Hb. rewrite Z.land_spec, Z.bits_0 in Hb.
    rewrite !Z.land_spec, Z.bits_0.
    destruct (Z.testbit v i), (Z.testbit m i), (Z.testbit (Z.ones h) i);
      simpl in *; congruence. }
  rewrite Hd, Hv32, Z.land_ones in Ha by lia. lia.
Qed.

Lemma last_arith (v h : Z) :
  0 <= h -> Z.lor v (Z.ones h) = v - v mod 2 ^ h + 2 ^ h - 1.
Proof.
  intros Hh. pose proof (Z.add_lor_land v (Z.ones h)) as Ha.
  rewrite Z.land_ones in Ha by lia. rewrite Z.ones_equiv in *. lia.
Qed.

(** *** What the parser accepts *)

Lemma digit_of_range c d : Netaddr.digit_of c = Some d -> 0 <= d <= 9.
Proof.
  unfold Netaddr.digit_of. intros H.
  destruct (Z.leb_spec 48 (Z.of_nat (nat_of_ascii c)));
    destruct (Z.leb_spec (Z.of_nat (nat_of_ascii c)) 57); simpl in H;
    try discriminate.
  injection H as <-. lia.
Qed.

Lemma parse_digits_nonneg s : forall acc z,
  0 <= acc -> Netaddr.parse_digits acc s = Some z -> 0 <= z.
Proof.
  induction s as [| c s IH]; simpl; intros acc z Hacc H.
  - injection H as <-. exact Hacc.
  - destruct (Netaddr.digit_of c) as [d |] eqn:Hd; [| discriminate].
    apply digit_of_range in Hd. apply (IH (10 * acc + d)); [lia | exact H].
Qed.

Lemma parse_decimal_nonneg s z : Netaddr.parse_decimal s = Some z -> 0 <= z.
Proof.
  unfold Netaddr.parse_decimal. intros H.
  destruct s as [| c s]; [discriminate |].
  assert (Hp : Netaddr.parse_digits 0 (String c s) = Some z).
  { destruct c as [[] [] [] [] [] [] [] []]; try exact H;
      destruct s; try exact H; discriminate. }
  apply (parse_digits_nonneg (String c s) 0 z); [lia | exact Hp].
Qed.

Lemma parse_octet_range s n : Netaddr.parse_octet s = Some n -> 0 <= n <= 255.
Proof.
  unfold Netaddr.parse_octet. intros H.
  destruct (Netaddr.parse_decimal s) as [m |] eqn:Hm; [| discriminate].
  apply parse_decimal_nonneg in Hm.
  destruct (Z.leb_spec m 255); [| discriminate]. injection H as <-. lia.
Qed.

Lemma lor_bound (x y : Z) : 0 <= x -> 0 <= y -> 0 <= Z.lor x y <= x + y.
Proof.
  intros Hx Hy. pose proof (Z.add_lor_land x y) as Ha.
  assert (0 <= Z.land x y) by (apply Z.land_nonneg; lia).
  assert (0 <= Z.lor x y) by (apply Z.lor_nonneg; lia). lia.
Qed.

Lemma str_to_int_range s v : Netaddr.str_to_int s = Some v -> 0 <= v < 2 ^ 32.
Proof.
  unfold Netaddr.str_to_int. intros H.
  destruct (Netaddr.split_on "." s) as [| a [| b [| c [| d [|]]]]]; try discriminate.
  destruct (Netaddr.parse_octet a) as [na |] eqn:Ha; [| discriminate].
  destruct (Netaddr.parse_octet b) as [nb |] eqn:Hb; [| discriminate].
  destruct (Netaddr.parse_octet c) as [nc |] eqn:Hc; [| discriminate].
  destruct (Netaddr.parse_octet d) as [nd |] eqn:Hd; [| discriminate].
  apply parse_octet_range in Ha, Hb, Hc, Hd. injection H as <-.
  rewrite !Z.shiftl_mul_pow2 by lia.
  pose proof (lor_bound (nc * 2 ^ 8) nd ltac:(lia) ltac:(lia)) as H1.
  pose proof (lor_bound (nb * 2 ^ 16) _ ltac:(lia) (proj1 H1)) as H2.
  pose proof (lor_bound (na * 2 ^ 24) _ ltac:(lia) (proj1 H2)) as H3.
  lia.
Qed.

Lemma parse_ip_network_range s n :
  Netaddr.parse_ip_network s = Some n ->
  0 <= Netaddr.net_value n < 2 ^ 32 /\ 0 <= Netaddr.prefixlen n <= 32.
Proof.
  unfold Netaddr.parse_ip_network. intros H.
  destruct (Netaddr.split_on "/" s) as [| a [| b [|]]]; try discriminate.
  destruct (Netaddr.str_to_int a) as [v |] eqn:Hv; [| discriminate].
  destruct (Netaddr.parse_decimal b) as [p |] eqn:Hp; [| discriminate].
  destruct (Z.leb_spec p Netaddr.width) as [Hle |]; [| discriminate].
  injection H as <-. simpl. apply str_to_int_range in Hv.
  apply parse_decimal_nonneg in Hp. unfold Netaddr.width in Hle. lia.
Qed.

Lemma netaddr_first (n : Netaddr.IPNetwork) :
  0 <= Netaddr.net_value n < 2 ^ 32 -> 0 <= Netaddr.prefixlen n <= 32 ->
  Netaddr.first n = network_base n.
Proof.
  intros Hv Hp. unfold Netaddr.first, Netaddr.hostmask_int, network_base, host_bits.
  rewrite hostmask_ones, max_int_ones. unfold Netaddr.width.
  apply first_arith; lia.
Qed.

Lemma netaddr_last (n : Netaddr.IPNetwork) :
  0 <= Netaddr.prefixlen n <= 32 ->
  Netaddr.last n = network_base n + 2 ^ host_bits n - 1.
Proof.
  intros Hp. unfold Netaddr.last, Netaddr.hostmask_int, network_base, host_bits.
  rewrite hostmask_ones. unfold Netaddr.width. apply last_arith. lia.
Qed.

Lemma netaddr_netmask (n : Netaddr.IPNetwork) :
  0 <= Netaddr.prefixlen n <= 32 ->
  Netaddr.netmask_int n = 2 ^ 32 - 2 ^ host_bits n.
Proof.
  intros Hp. unfold Netaddr.netmask_int, Netaddr.hostmask_int, host_bits.
  rewrite hostmask_ones, max_int_ones. unfold Netaddr.width.
  apply netmask_arith. lia.
Qed.

Lemma netaddr_getitem (n : Netaddr.IPNetwork) :
  0 <= Netaddr.net_value n < 2 ^ 32 -> 0 <= Netaddr.prefixlen n <= 30 ->
  Netaddr.getitem n 1 = Some (network_base n + 1)
  /\ Netaddr.getitem n 2 = Some (network_base n + 2)
  /\ Netaddr.getitem n (-1) = Some (network_base n + 2 ^ host_bits n - 1).
Proof.
  intros Hv Hp. unfold Netaddr.getitem, Netaddr.size.
  rewrite netaddr_first, netaddr_last by lia.
  assert (H4 : 2 ^ 2 <= 2 ^ host_bits n).
  { apply Z.pow_le_mono_r; unfold host_bits; lia. }
  change (2 ^ 2) with 4 in H4.
  set (b := network_base n) in *. set (s := 2 ^ host_bits n) in *.
  repeat split.
  - destruct (Z.leb_spec (- (b + s - 1 - b + 1)) 1), (Z.ltb_spec 1 0); simpl; try lia;
      destruct (Z.leb_spec 0 1), (Z.leb_spec 1 (b + s - 1 - b + 1 - 1)); simpl;
      try lia; reflexivity.
  - destruct (Z.leb_spec (- (b + s - 1 - b + 1)) 2), (Z.ltb_spec 2 0); simpl; try lia;
      destruct (Z.leb_spec 0 2), (Z.leb_spec 2 (b + s - 1 - b + 1 - 1)); simpl;
      try lia; reflexivity.
  - destruct (Z.leb_spec (- (b + s - 1 - b + 1)) (-1)), (Z.ltb_spec (-1) 0); simpl;
      try lia. f_equal. lia.
Qed.

Lemma constant_ret {A} (a : A) : constant (ret a).
Proof. exists (Ret a). reflexivity. Qed.

Lemma constant_raise {A} (x : Exn) : constant (raise (A := A) x).
Proof. exists (Raise x). reflexivity. Qed.

Lemma constant_bind {A C} (m : M C) (k : C -> M A) :
  constant m -> (forall c, constant (k c)) -> constant (mbind m k).
Proof.
  intros [r Hr] Hk. destruct r as [c | x].
  - destruct (Hk c) as [r' Hr']. exists r'. intros w.
    rewrite (mbind_eval _ _ w w c) by apply Hr. apply Hr'.
  - exists (Raise x). intros w. apply mbind_raise. apply Hr.
Qed.

Lemma constant_IPNetwork v : constant (IPNetwork v).
Proof.
  unfold IPNetwork. destruct v; try apply constant_raise.
  destruct (Netaddr.parse_ip_network s); [apply constant_ret | apply constant_raise].
Qed.

Lemma constant_getitem n i : constant (getitem n i).
Proof.
  unfold getitem. destruct (Netaddr.getitem n i); [apply constant_ret | apply constant_raise].
Qed.

(** C7: the desired network configuration is a function of the configured
    CIDR string alone and reading it changes nothing.  For a block with at
    least four addresses the gateway is the second address of the range,
    the netmask is the subnet mask, the lower bound is the third address
    and the upper bound is the last address; for 172.21.21.0/24 these are
    172.21.21.1, 255.255.255.0, 172.21.21.2 and 172.21.21.255, in a
    Success. *)
Theorem readNetworkConfig_desired :
  (forall w, snd (readNetworkConfig w) = w)
  /\ (forall w1 w2, config w1 !! "network" = config w2 !! "network" ->
        fst (readNetworkConfig w1) = fst (readNetworkConfig w2))
  /\ (forall w cidr n,
        config w !! "network" = Some (VStr cidr) ->
        Netaddr.parse_ip_network cidr = Some n ->
        Netaddr.prefixlen n <= 30 ->
        fst (readNetworkConfig w) =
          Ret (VTry (OK (VDict (netconfig_dict
            (Netaddr.format (network_base n + 1))
            (Netaddr.format (2 ^ 32 - 2 ^ host_bits n))
            (Netaddr.format (network_base n + 2))
            (Netaddr.format (network_base n + 2 ^ host_bits n - 1)))))))
  /\ (forall w,
        config w !! "network" = Some (VStr "172.21.21.0/24") ->
        readNetworkConfig w =
          (Ret (VTry (OK (VDict (netconfig_dict
             "172.21.21.1" "255.255.255.0" "172.21.21.2" "172.21.21.255")))), w)).
Proof.
  assert (Hgen : forall w cidr n,
        config w !! "network" = Some (VStr cidr) ->
        Netaddr.parse_ip_network cidr = Some n ->
        Netaddr.prefixlen n <= 30 ->
        fst (readNetworkConfig w) =
          Ret (VTry (OK (VDict (netconfig_dict
            (Netaddr.format (network_base n + 1))
            (Netaddr.format (2 ^ 32 - 2 ^ host_bits n))
            (Netaddr.format (network_base n + 2))
            (Netaddr.format (network_base n + 2 ^ host_bits n - 1))))))).
  { intros w cidr n Hc Hparse Hp.
    destruct (parse_ip_network_range _ _ Hparse) as [Hv Hp'].
    destruct (netaddr_getitem n Hv ltac:(lia)) as (H1 & H2 & H3).
    unfold readNetworkConfig. cbv zeta.
    rewrite (mbind_eval _ _ w w (VStr cidr)); [| unfold Config.get; rewrite Hc; reflexivity].
    erewrite mbind_eval; [| unfold IPNetwork; rewrite Hparse; reflexivity].
    erewrite mbind_eval; [| unfold getitem; rewrite H1; reflexivity].
    erewrite mbind_eval; [| unfold getitem; rewrite H2; reflexivity].
    erewrite mbind_eval; [| unfold getitem; rewrite H3; reflexivity].
    rewrite netaddr_netmask by lia. reflexivity. }
  split; [exact readNetworkConfig_pure |].
  split; [| split; [exact Hgen |]].
  - intros w1 w2 H. unfold readNetworkConfig. cbv zeta.
    rewrite (mbind_eval _ _ w1 w1 (default VNone (config w1 !! "network"))) by reflexivity.
    rewrite (mbind_eval _ _ w2 w2 (default VNone (config w2 !! "network"))) by reflexivity.
    rewrite H. generalize (default VNone (config w2 !! "network")). intros v.
    match goal with
    | |- fst (?m w1) = _ => assert (Hm : constant m)
    end.
    { apply constant_bind; [apply constant_IPNetwork | intros netrange].
      apply constant_bind; [apply constant_getitem | intros gateway].
      apply constant_bind; [apply constant_getitem | intros lowerIP].
      apply constant_bind; [apply constant_getitem | intros upperIP].
      apply constant_ret. }
    destruct Hm as [r Hr]. rewrite !Hr. reflexivity.
  - intros w Hc. rewrite (surjective_pairing (readNetworkConfig w)).
    rewrite readNetworkConfig_pure.
    rewrite (Hgen w _ _ Hc ltac:(vm_compute; reflexivity) ltac:(vm_compute; discriminate)).
    reflexivity.
Qed.

Lemma readNetworkConfig_desired_witness :
  readNetworkConfig Scenarios.configured =
    (Ret (VTry (OK (VDict (netconfig_dict
       "172.21.21.1" "255.255.255.0" "172.21.21.2" "172.21.21.255")))),
     Scenarios.configured).
Proof.
  apply (proj2 (proj2 (proj2 readNetworkConfig_desired))). reflexivity.
Defined.

(** ** Network reconciliation *)

Lemma catchError_absent (t : Try value) (w : World) :
  Monads.catchError (VTry t) VirtualBoxObjectNotFound
    (fun err => ret (VTry (OK VNone))) w = (Ret (VTry (recover_absent t)), w).
Proof.
  destruct t as [v | e]; simpl; [reflexivity |].
  destruct (ErrorKind_eqb (err_kind e) VirtualBoxObjectNotFound); reflexivity.
Qed.

(** With an interface name on record, the two reads are made, each is
    recovered from "not found" alone, and the decision is taken on what was
    observed; a read that failed otherwise is the result. *)
Lemma assertNetworking_configured (B : Backend) (w : World) (i nc : value) :
  config w !! "interface" = Some i ->
  truthy i = true ->
  fst (readNetworkConfig w) = Ret (VTry (OK nc)) ->
  let h := trace w ++ [EReadHostOnlyInterface i] in
  let w' := {| config := config w; trace := h ++ [EReadDHCP i] |} in
  assertNetworking B w =
    match recover_absent (fmapTry VHoif (onReadHostOnlyInterface B (trace w) i)),
          recover_absent (onReadDHCP B h i) with
    | OK hoif, OK dhcp => assertNetworkConfiguration B (VTuple [nc; hoif; dhcp]) w'
    | Fail e, _ => (Ret (VTry (Fail e)), w')
    | OK _, Fail e => (Ret (VTry (Fail e)), w')
    end.
Proof.
  intros Hi Ht Hnc. cbv zeta. unfold assertNetworking.
  rewrite (mbind_eval _ _ w w i);
    [| unfold getNetworkInterface, Config.get; rewrite Hi; reflexivity].
  rewrite (mbind_eval _ _ w w (VTry (OK nc)));
    [| rewrite (surjective_pairing (readNetworkConfig w)), Hnc,
         readNetworkConfig_pure; reflexivity].
  rewrite Ht. unfold Network.readHostOnlyInterface, Network.readDHCP.
  erewrite mbind_eval; [| apply call_outcome].
  erewrite mbind_eval; [| apply catchError_absent].
  erewrite mbind_eval; [| apply call_outcome].
  erewrite mbind_eval; [| apply catchError_absent].
  cbn [config trace].
  destruct (recover_absent (fmapTry VHoif (onReadHostOnlyInterface B (trace w) i)))
    as [hoif | e];
    destruct (recover_absent (onReadDHCP B (trace w ++ [EReadHostOnlyInterface i]) i))
    as [dhcp | e']; reflexivity.
Qed.

Lemma subscript_gateway g n l u w :
  subscript (VDict (netconfig_dict g n l u)) "gateway" w = (Ret (VStr g), w).
Proof. reflexivity. Qed.

Lemma subscript_netmask g n l u w :
  subscript (VDict (netconfig_dict g n l u)) "netmask" w = (Ret (VStr n), w).
Proof. reflexivity. Qed.

Lemma saveInterface_outcome (B : Backend) (iface : value) (w0 : World) :
  exists t, fst (saveInterface B iface w0) = Ret (VTry t).
Proof. eexists. reflexivity. Qed.

Lemma readHostOnlyInterface_outcome (B : Backend) (name : value) (w0 : World) :
  exists t, fst (Network.readHostOnlyInterface B name w0) = Ret (VTry t).
Proof. unfold Network.readHostOnlyInterface. rewrite call_outcome. eexists. reflexivity. Qed.

Lemma save_and_read_eq (B : Backend) (iface : value) (w0 : World) (r : value) :
  (r' <- Monads.then_ B r (saveInterface B iface) ;;
   Monads.then_ B r' (Network.readHostOnlyInterface B iface)) w0 =
    match r with
    | VTry (OK _) => save_and_read B iface w0
    | VTry (Fail e) => (Ret (VTry (Fail e)), w0)
    | _ => (Raise AttributeError, w0)
    end.
Proof.
  unfold mbind.
  rewrite (then_outcome B r (saveInterface B iface) w0 (saveInterface_outcome B iface)).
  destruct r as [| | | | | | | | | [v | e]]; try reflexivity.
  unfold save_and_read. cbv zeta.
  change (saveInterface B iface w0) with
    (Ret (VTry (onSaveConfig B (trace w0) (<["interface" := iface]> (config w0)))),
     {| config := <["interface" := iface]> (config w0);
        trace := trace w0 ++ [ESaveConfig (<["interface" := iface]> (config w0))] |}).
  destruct (onSaveConfig B (trace w0) (<["interface" := iface]> (config w0))); reflexivity.
Qed.

(** The provisioning path on the dictionary [readNetworkConfig] builds: the
    interface is added and configured and the DHCP service is provisioned.
    [provisionDHCP] hands back [None]; what the chain does next is what
    [then] makes of that [None]: the outcome of the DHCP step has no part
    in it. *)
Lemma provisionNetworking_steps (B : Backend) (g n l u : string) (w : World) :
  let h0 := trace w ++ [networking_banner] in
  let h1 := h0 ++ [EAddHostOnlyInterface] in
  provisionNetworking B (VDict (netconfig_dict g n l u)) w =
    match onAddHostOnlyInterface B h0 with
    | Fail e => (Ret (VTry (Fail e)), {| config := config w; trace := h1 |})
    | OK iface =>
        let h2 := h1 ++ [EConfigureHostOnlyInterface iface (VStr g) (VStr n)] in
        match onConfigureHostOnlyInterface B h1 iface (VStr g) (VStr n) with
        | Fail e => (Ret (VTry (Fail e)), {| config := config w; trace := h2 |})
        | OK configured =>
            let h3 := h2 ++ [dhcp_banner] in
            let c := carried_after_removal iface (onRemoveDHCP B h3 iface) in
            let provisioned :=
              {| config := config w;
                 trace := (h3 ++ [ERemoveDHCP iface])
                            ++ [EAddDHCP c (VStr g) (VStr n) (VStr l) (VStr u)] |} in
            match onThenNonOutcome B configured VNone with
            | Ret (VTry (OK _)) => save_and_read B iface provisioned
            | Ret (VTry (Fail e)) => (Ret (VTry (Fail e)), provisioned)
            | Ret _ => (Raise AttributeError, provisioned)
            | Raise x => (Raise x, provisioned)
            end
        end
    end.
Proof.
  cbv zeta. unfold provisionNetworking.
  erewrite mbind_eval; [| reflexivity].
  unfold Network.addHostOnlyInterface.
  erewrite mbind_eval; [| apply call_outcome].
  cbn [config trace]. fold networking_banner.
  destruct (onAddHostOnlyInterface B (trace w ++ [networking_banner])) as [iface | e].
  - erewrite mbind_eval; [| reflexivity]. cbv iota.
    erewrite mbind_eval; [| reflexivity].
    erewrite mbind_eval; [| apply subscript_gateway].
    erewrite mbind_eval; [| apply subscript_netmask].
    unfold Network.configureHostOnlyInterface.
    erewrite mbind_eval; [| apply call_outcome].
    cbn [config trace].
    destruct (onConfigureHostOnlyInterface B _ iface (VStr g) (VStr n)) as [v | e].
    + unfold mbind at 1. rewrite then_on_success, provisionDHCP_steps.
      cbv zeta. cbn [config trace].
      destruct (onThenNonOutcome B v VNone) as [r | x]; [| reflexivity].
      rewrite save_and_read_eq.
      destruct r as [| | | | | | | | | [v' | e']]; reflexivity.
    + reflexivity.
  - reflexivity.
Qed.

(** C4: when the configured interface is present with the desired gateway
    as its address and the DHCP service is absent, assertNetworking makes
    the two reads, warns, and runs the DHCP provisioning alone: the removal
    and the add of the DHCP service on that interface.  No interface is
    added or configured and the configuration is unchanged. *)
Theorem dhcp_repair_only (B : Backend) (w : World) (i : value)
    (hoif : HostOnlyInterface) (g n l u : string) :
  config w !! "interface" = Some i ->
  truthy i = true ->
  fst (readNetworkConfig w) = Ret (VTry (OK (VDict (netconfig_dict g n l u)))) ->
  onReadHostOnlyInterface B (trace w) i = OK hoif ->
  Netaddr.format (hoif_ip hoif) = g ->
  recover_absent (onReadDHCP B (trace w ++ [EReadHostOnlyInterface i]) i) = OK VNone ->
  let name := VStr (hoif_name hoif) in
  let before_removal :=
    trace w ++ [EReadHostOnlyInterface i; EReadDHCP i;
                dhcp_warning (hoif_name hoif); dhcp_banner] in
  let c := carried_after_removal name (onRemoveDHCP B before_removal name) in
  let final := snd (assertNetworking B w) in
  events_since w final =
    [EReadHostOnlyInterface i; EReadDHCP i; dhcp_warning (hoif_name hoif);
     dhcp_banner; ERemoveDHCP name; EAddDHCP c (VStr g) (VStr n) (VStr l) (VStr u)]
  /\ Forall leaves_interface (events_since w final)
  /\ config final = config w.
Proof.
  intros Hi Ht Hnc Hread Hip Hdhcp. cbv zeta.
  assert (Hrun : assertNetworking B w =
    (Ret VNone,
     {| config := config w;
        trace := trace w ++
          [EReadHostOnlyInterface i; EReadDHCP i; dhcp_warning (hoif_name hoif);
           dhcp_banner; ERemoveDHCP (VStr (hoif_name hoif));
           EAddDHCP (carried_after_removal (VStr (hoif_name hoif))
                       (onRemoveDHCP B
                          (trace w ++ [EReadHostOnlyInterface i; EReadDHCP i;
                                       dhcp_warning (hoif_name hoif); dhcp_banner])
                          (VStr (hoif_name hoif))))
                    (VStr g) (VStr n) (VStr l) (VStr u)] |})).
  { rewrite (assertNetworking_configured B w i _ Hi Ht Hnc).
    rewrite Hread. cbn [fmapTry recover_absent]. rewrite Hdhcp.
    unfold assertNetworkConfiguration. cbn [truthy negb].
    erewrite mbind_eval; [| reflexivity].
    erewrite mbind_eval; [| apply subscript_gateway].
    rewrite Hip. cbn [str_ne]. rewrite String.eqb_refl. cbn [negb].
    erewrite mbind_eval; [| reflexivity].
    erewrite mbind_eval; [| reflexivity].
    rewrite provisionDHCP_steps. cbn [config trace]. fold (dhcp_warning (hoif_name hoif)).
    rewrite <- !app_assoc. reflexivity. }
  rewrite Hrun. cbn [snd config].
  assert (Hev : forall evs c0, events_since w {| config := c0; trace := trace w ++ evs |} = evs).
  { intros. apply events_since_app. }
  rewrite Hev. split; [reflexivity | split; [| reflexivity]].
  repeat constructor; unfold leaves_interface; simpl; tauto.
Qed.

Lemma dhcp_repair_only_witness :
  events_since Scenarios.configured
    (snd (assertNetworking Scenarios.dhcpMissing Scenarios.configured))
  = [EReadHostOnlyInterface (VStr "vboxnet0"); EReadDHCP (VStr "vboxnet0");
     dhcp_warning "vboxnet0"; dhcp_banner; ERemoveDHCP (VStr "vboxnet0");
     EAddDHCP (VStr "vboxnet0") (VStr "172.21.21.1") (VStr "255.255.255.0")
       (VStr "172.21.21.2") (VStr "172.21.21.255")]
  /\ Forall leaves_interface
       (events_since Scenarios.configured
          (snd (assertNetworking Scenarios.dhcpMissing Scenarios.configured)))
  /\ config (snd (assertNetworking Scenarios.dhcpMissing Scenarios.configured))
     = config Scenarios.configured.
Proof.
  exact (dhcp_repair_only Scenarios.dhcpMissing Scenarios.configured
           (VStr "vboxnet0") Scenarios.vboxnet0
           "172.21.21.1" "255.255.255.0" "172.21.21.2" "172.21.21.255"
           eq_refl eq_refl ltac:(vm_compute; reflexivity) eq_refl
           ltac:(vm_compute; reflexivity) eq_refl).
Defined.

Lemma provisionNetworking_begins (B : Backend) (nc : value) (w : World) :
  exists rest,
    trace (snd (provisionNetworking B nc w)) =
      (trace w ++ [networking_banner; EAddHostOnlyInterface]) ++ rest.
Proof.
  unfold provisionNetworking.
  erewrite mbind_eval; [| reflexivity].
  unfold Network.addHostOnlyInterface.
  erewrite mbind_eval; [| apply call_outcome].
  match goal with
  | |- context [snd (?k ?w0)] => set (K := k); set (W0 := w0)
  end.
  assert (Hk : emits_only (fun _ => True) K).
  { subst K. unfold saveInterface, provisionDHCP, log, subscript, kwargs,
      Network.configureHostOnlyInterface, Network.readHostOnlyInterface,
      Network.removeDHCP, Network.addDHCP.
    frame; exact I. }
  destruct (Hk W0) as (rest & Hrest & _).
  exists rest. rewrite Hrest. subst W0. cbn [trace]. unfold networking_banner.
  rewrite <- !app_assoc. reflexivity.
Qed.

(** C5: with an interface name on record, the desired configuration
    readable and the DHCP state observed (present or absent), a read of the
    interface that fails with "not found" is not the result of
    assertNetworking: the failure is downgraded to the absence value None,
    and assertNetworking is the provisioning path run after the two reads,
    which starts by adding a new host-only interface. *)
Theorem absent_interface_is_reprovisioned (B : Backend) (w : World)
    (i nc dhcp : value) (e : Error) :
  config w !! "interface" = Some i ->
  truthy i = true ->
  fst (readNetworkConfig w) = Ret (VTry (OK nc)) ->
  onReadHostOnlyInterface B (trace w) i = Fail e ->
  err_kind e = VirtualBoxObjectNotFound ->
  recover_absent (onReadDHCP B (trace w ++ [EReadHostOnlyInterface i]) i) = OK dhcp ->
  let observed :=
    {| config := config w;
       trace := (trace w ++ [EReadHostOnlyInterface i]) ++ [EReadDHCP i] |} in
  recover_absent (fmapTry VHoif (onReadHostOnlyInterface B (trace w) i)) = OK VNone
  /\ assertNetworking B w = provisionNetworking B nc observed
  /\ exists rest,
       events_since w (snd (assertNetworking B w)) =
         [EReadHostOnlyInterface i; EReadDHCP i; networking_banner; EAddHostOnlyInterface]
         ++ rest.
Proof.
  intros Hi Ht Hnc Hread Hk Hdhcp. cbv zeta.
  assert (Hdown : recover_absent (fmapTry VHoif (onReadHostOnlyInterface B (trace w) i))
                  = OK VNone).
  { rewrite Hread. cbn [fmapTry recover_absent]. rewrite Hk. reflexivity. }
  assert (Hrun : assertNetworking B w =
                 provisionNetworking B nc
                   {| config := config w;
                      trace := (trace w ++ [EReadHostOnlyInterface i]) ++ [EReadDHCP i] |}).
  { rewrite (assertNetworking_configured B w i nc Hi Ht Hnc).
    rewrite Hdown, Hdhcp. reflexivity. }
  split; [exact Hdown | split; [exact Hrun |]].
  rewrite Hrun.
  destruct (provisionNetworking_begins B nc
              {| config := config w;
                 trace := (trace w ++ [EReadHostOnlyInterface i]) ++ [EReadDHCP i] |})
    as (rest & Hrest).
  exists rest. unfold events_since. rewrite Hrest. cbn [trace].
  rewrite <- !app_assoc. apply drop_app_length.
Qed.

Lemma absent_interface_is_reprovisioned_witness :
  assertNetworking Scenarios.interfaceGone Scenarios.configured =
    provisionNetworking Scenarios.interfaceGone Scenarios.desired
      {| config := Scenarios.savedConfig;
         trace := [EReadHostOnlyInterface (VStr "vboxnet0"); EReadDHCP (VStr "vboxnet0")] |}.
Proof.
  exact (proj1 (proj2 (absent_interface_is_reprovisioned
           Scenarios.interfaceGone Scenarios.configured
           (VStr "vboxnet0") Scenarios.desired (VObj 1) Scenarios.notFound
           eq_refl eq_refl ltac:(vm_compute; reflexivity) eq_refl eq_refl eq_refl))).
Defined.

(** ** What the provisioning path returns *)

Lemma since_explicit (w : World) (c : gmap string value) (t evs : list Event) :
  t = trace w ++ evs -> events_since w {| config := c; trace := t |} = evs.
Proof. intros ->. apply events_since_app. Qed.

Lemma provisionDHCP_result (B : Backend) (i nc : value) :
  returns (fun r => r = Ret VNone \/ exists x, r = Raise x) (provisionDHCP B i nc).
Proof.
  unfold provisionDHCP.
  repeat (apply returns_bind; [intros x; right; exists x; reflexivity | intros ?]).
  apply returns_ret. left. reflexivity.
Qed.

(** C3: provisionDHCP does not return the Outcome of its DHCP-add step: it
    never returns an outcome at all.  On a well-formed network
    configuration it runs the removal and the add and returns None, whatever
    the add step answered. *)
Theorem provisionDHCP_returns_None :
  (forall B i nc w t, fst (provisionDHCP B i nc w) <> Ret (VTry t))
  /\ (forall B i g n l u w,
        fst (provisionDHCP B i (VDict (netconfig_dict g n l u)) w) = Ret VNone)
  /\ fst (provisionDHCP Scenarios.healthy (VStr "vboxnet0") Scenarios.desired
            Scenarios.configured) = Ret VNone
  /\ onAddDHCP Scenarios.healthy
       [dhcp_banner; ERemoveDHCP (VStr "vboxnet0")] (VStr "vboxnet0")
       (VStr "172.21.21.1") (VStr "255.255.255.0")
       (VStr "172.21.21.2") (VStr "172.21.21.255") = OK VNone.
Proof.
  split; [| split; [| split]].
  - intros B i nc w t H.
    destruct (provisionDHCP_result B i nc w) as [Hn | [x Hx]]; congruence.
  - intros. rewrite provisionDHCP_steps. reflexivity.
  - vm_compute. reflexivity.
  - reflexivity.
Qed.

(** C2: the provisioning path adds a host-only interface, configures it
    with the desired gateway and netmask and provisions DHCP on it, in that
    order, and a failing add or configure step ends the path and is its
    result.  A failing DHCP step does not: provisionDHCP hands back None
    whatever its add step answered, and what follows is decided by what
    [then] makes of that None and not by the outcome of the DHCP step.
    With a backend whose DHCP add fails, the path either raises
    AttributeError (None handed on as it is) or goes on to save the
    interface name, read the interface back and return it in a Success
    (None wrapped in a Success); in neither case is the failure the
    result. *)
Theorem provisionNetworking_ignores_dhcp_failure :
  (forall B g n l u w,
     let h0 := trace w ++ [networking_banner] in
     let h1 := h0 ++ [EAddHostOnlyInterface] in
     provisionNetworking B (VDict (netconfig_dict g n l u)) w =
       match onAddHostOnlyInterface B h0 with
       | Fail e => (Ret (VTry (Fail e)), {| config := config w; trace := h1 |})
       | OK iface =>
           let h2 := h1 ++ [EConfigureHostOnlyInterface iface (VStr g) (VStr n)] in
           match onConfigureHostOnlyInterface B h1 iface (VStr g) (VStr n) with
           | Fail e => (Ret (VTry (Fail e)), {| config := config w; trace := h2 |})
           | OK configured =>
               let h3 := h2 ++ [dhcp_banner] in
               let c := carried_after_removal iface (onRemoveDHCP B h3 iface) in
               let provisioned :=
                 {| config := config w;
                    trace := (h3 ++ [ERemoveDHCP iface])
                               ++ [EAddDHCP c (VStr g) (VStr n) (VStr l) (VStr u)] |} in
               match onThenNonOutcome B configured VNone with
               | Ret (VTry (OK _)) => save_and_read B iface provisioned
               | Ret (VTry (Fail e)) => (Ret (VTry (Fail e)), provisioned)
               | Ret _ => (Raise AttributeError, provisioned)
               | Raise x => (Raise x, provisioned)
               end
           end
       end)
  /\ onAddDHCP Scenarios.dhcpAddFails
       [networking_banner; EAddHostOnlyInterface;
        EConfigureHostOnlyInterface (VStr "vboxnet1")
          (VStr "172.21.21.1") (VStr "255.255.255.0");
        dhcp_banner; ERemoveDHCP (VStr "vboxnet1")]
       (VStr "vboxnet1") (VStr "172.21.21.1") (VStr "255.255.255.0")
       (VStr "172.21.21.2") (VStr "172.21.21.255")
     = Fail Scenarios.commandFailed
  /\ provisionNetworking Scenarios.dhcpAddFails Scenarios.desired Scenarios.emptyWorld =
       (Raise AttributeError,
        {| config := ∅;
           trace := [networking_banner; EAddHostOnlyInterface;
                     EConfigureHostOnlyInterface (VStr "vboxnet1")
                       (VStr "172.21.21.1") (VStr "255.255.255.0");
                     dhcp_banner; ERemoveDHCP (VStr "vboxnet1");
                     EAddDHCP (VStr "vboxnet1") (VStr "172.21.21.1")
                       (VStr "255.255.255.0") (VStr "172.21.21.2")
                       (VStr "172.21.21.255")] |})
  /\ provisionNetworking Scenarios.dhcpAddFailsWrapping Scenarios.desired
       Scenarios.emptyWorld =
       (Ret (VTry (OK (VHoif Scenarios.vboxnet0))),
        {| config := <["interface" := VStr "vboxnet1"]> ∅;
           trace := [networking_banner; EAddHostOnlyInterface;
                     EConfigureHostOnlyInterface (VStr "vboxnet1")
                       (VStr "172.21.21.1") (VStr "255.255.255.0");
                     dhcp_banner; ERemoveDHCP (VStr "vboxnet1");
                     EAddDHCP (VStr "vboxnet1") (VStr "172.21.21.1")
                       (VStr "255.255.255.0") (VStr "172.21.21.2")
                       (VStr "172.21.21.255");
                     ESaveConfig (<["interface" := VStr "vboxnet1"]> ∅);
                     EReadHostOnlyInterface (VStr "vboxnet1")] |}).
Proof.
  split; [exact provisionNetworking_steps |].
  split; [reflexivity |].
  split; vm_compute; reflexivity.
Qed.

(** On a cold start the outcome object that [readNetworkConfig] returned is
    what [assertNetworking] hands to the provisioning path. *)
Lemma cold_start_passes_outcome (B : Backend) (w : World) (nc : value) :
  config w !! "interface" = None ->
  fst (readNetworkConfig w) = Ret (VTry (OK nc)) ->
  assertNetworking B w = provisionNetworking B (VTry (OK nc)) w.
Proof.
  intros Hi Hnc. unfold assertNetworking.
  rewrite (mbind_eval _ _ w w VNone);
    [| unfold getNetworkInterface, Config.get; rewrite Hi; reflexivity].
  rewrite (mbind_eval _ _ w w (VTry (OK nc)));
    [| rewrite (surjective_pairing (readNetworkConfig w)), Hnc,
         readNetworkConfig_pure; reflexivity].
  reflexivity.
Qed.

(** ** Recovery from a failed DHCP removal *)

(** C6, as stated, does not hold: a removal that fails because the backend
    command failed is recovered like any other, and the DHCP-add step is
    reached. *)
Lemma removal_recovery_is_not_typed : ~ removal_recovery_is_typed.
Proof.
  intros H.
  specialize (H Scenarios.removalBroken (VStr "vboxnet0") Scenarios.desired
                Scenarios.configured Scenarios.commandFailed eq_refl
                ltac:(discriminate)).
  rewrite Forall_forall in H.
  apply (H (EAddDHCP (VStr "vboxnet0") (VStr "172.21.21.1") (VStr "255.255.255.0")
              (VStr "172.21.21.2") (VStr "172.21.21.255"))); [| exact I].
  vm_compute. do 2 right. left.
Qed.

(** C6, amended: in DHCP provisioning every failure of the removal step,
    whatever its kind, is recovered: the chain continues to the DHCP-add
    step, which is given the interface name.  The typed recovery is the one
    of the presence checks in assertNetworking: an interface read that fails
    for another reason than "not found" is returned as the Failure it is,
    after both reads and without any provisioning. *)
Theorem removal_failure_is_recovered :
  (forall B i g n l u w e,
     onRemoveDHCP B (trace w ++ [dhcp_banner]) i = Fail e ->
     events_since w (snd (provisionDHCP B i (VDict (netconfig_dict g n l u)) w)) =
       [dhcp_banner; ERemoveDHCP i; EAddDHCP i (VStr g) (VStr n) (VStr l) (VStr u)])
  /\ (forall B w i nc e,
        config w !! "interface" = Some i ->
        truthy i = true ->
        fst (readNetworkConfig w) = Ret (VTry (OK nc)) ->
        onReadHostOnlyInterface B (trace w) i = Fail e ->
        err_kind e <> VirtualBoxObjectNotFound ->
        assertNetworking B w =
          (Ret (VTry (Fail e)),
           {| config := config w;
              trace := (trace w ++ [EReadHostOnlyInterface i]) ++ [EReadDHCP i] |})).
Proof.
  split.
  - intros B i g n l u w e H. rewrite provisionDHCP_steps. cbv zeta. rewrite H.
    cbn [snd carried_after_removal].
    apply since_explicit. rewrite <- !app_assoc. reflexivity.
  - intros B w i nc e Hi Ht Hnc Hread Hk.
    rewrite (assertNetworking_configured B w i nc Hi Ht Hnc). rewrite Hread.
    cbn [fmapTry recover_absent].
    destruct (err_kind e); try contradiction; reflexivity.
Qed.

Lemma removal_failure_is_recovered_witness :
  events_since Scenarios.configured
    (snd (provisionDHCP Scenarios.removalBroken (VStr "vboxnet0") Scenarios.desired
            Scenarios.configured))
  = [dhcp_banner; ERemoveDHCP (VStr "vboxnet0");
     EAddDHCP (VStr "vboxnet0") (VStr "172.21.21.1") (VStr "255.255.255.0")
       (VStr "172.21.21.2") (VStr "172.21.21.255")]
  /\ fst (assertNetworking Scenarios.interfaceUnreadable Scenarios.configured)
     = Ret (VTry (Fail Scenarios.commandFailed)).
Proof.
  split.
  - exact (proj1 removal_failure_is_recovered Scenarios.removalBroken (VStr "vboxnet0")
             "172.21.21.1" "255.255.255.0" "172.21.21.2" "172.21.21.255"
             Scenarios.configured Scenarios.commandFailed eq_refl).
  - rewrite (proj2 removal_failure_is_recovered Scenarios.interfaceUnreadable
               Scenarios.configured (VStr "vboxnet0") Scenarios.desired
               Scenarios.commandFailed eq_refl eq_refl
               ltac:(vm_compute; reflexivity) eq_refl ltac:(discriminate)).
    reflexivity.
Defined.

(** * Further properties of the driver *)

(** ** The decision of the reconciliation *)

Lemma assertNetworkConfiguration_absent (B : Backend) (nc dhcp : value) (w : World) :
  assertNetworkConfiguration B (VTuple [nc; VNone; dhcp]) w = provisionNetworking B nc w.
Proof. reflexivity. Qed.

Lemma assertNetworkConfiguration_present (B : Backend) (g n l u : string)
    (hoif : HostOnlyInterface) (dhcp : value) (w : World) :
  let nc := VDict (netconfig_dict g n l u) in
  assertNetworkConfiguration B (VTuple [nc; VHoif hoif; dhcp]) w =
    if String.eqb (Netaddr.format (hoif_ip hoif)) g then
      match dhcp with
      | VNone =>
          provisionDHCP B (VStr (hoif_name hoif)) nc
            {| config := config w; trace := trace w ++ [dhcp_warning (hoif_name hoif)] |}
      | _ => (Ret (VTry (OK (VHoif hoif))), w)
      end
    else
      provisionNetworking B nc
        {| config := config w; trace := trace w ++ [misconfigured_warning (hoif_name hoif)] |}.
Proof.
  cbv zeta. unfold assertNetworkConfiguration. cbn [truthy negb].
  erewrite mbind_eval; [| reflexivity].
  erewrite mbind_eval; [| apply subscript_gateway].
  cbn [str_ne]. destruct (String.eqb (Netaddr.format (hoif_ip hoif)) g); cbn [negb].
  - destruct dhcp; try reflexivity.
  - reflexivity.
Qed.

(** X1: when the configured interface is present with the desired gateway
    as its address and a DHCP service is reported for it, assertNetworking
    returns Success of that interface after the two reads and does nothing
    else. *)
Theorem converged_network_is_left_alone (B : Backend) (w : World) (i dhcp : value)
    (hoif : HostOnlyInterface) (g n l u : string) :
  config w !! "interface" = Some i ->
  truthy i = true ->
  fst (readNetworkConfig w) = Ret (VTry (OK (VDict (netconfig_dict g n l u)))) ->
  onReadHostOnlyInterface B (trace w) i = OK hoif ->
  Netaddr.format (hoif_ip hoif) = g ->
  onReadDHCP B (trace w ++ [EReadHostOnlyInterface i]) i = OK dhcp ->
  dhcp <> VNone ->
  assertNetworking B w = (Ret (VTry (OK (VHoif hoif))), after_reads w i).
Proof.
  intros Hi Ht Hnc Hread Hip Hdhcp Hsome.
  rewrite (assertNetworking_configured B w i _ Hi Ht Hnc).
  rewrite Hread, Hdhcp. cbn [fmapTry recover_absent].
  rewrite assertNetworkConfiguration_present. cbv zeta.
  rewrite Hip, String.eqb_refl.
  destruct dhcp; try reflexivity. contradiction.
Qed.

Lemma converged_network_is_left_alone_witness :
  assertNetworking Scenarios.healthy Scenarios.configured =
    (Ret (VTry (OK (VHoif Scenarios.vboxnet0))),
     after_reads Scenarios.configured (VStr "vboxnet0")).
Proof.
  exact (converged_network_is_left_alone Scenarios.healthy Scenarios.configured
           (VStr "vboxnet0") (VObj 1) Scenarios.vboxnet0
           "172.21.21.1" "255.255.255.0" "172.21.21.2" "172.21.21.255"
           eq_refl eq_refl ltac:(vm_compute; reflexivity) eq_refl
           ltac:(vm_compute; reflexivity) eq_refl ltac:(discriminate)).
Defined.

(** X2: when the configured interface is present but its address is not the
    desired gateway, assertNetworking warns and runs the whole provisioning
    path, whatever the DHCP state is (a missing DHCP service does not turn
    this into a DHCP repair): after the two reads and the warning the next
    call adds a new host-only interface. *)
Theorem drifted_interface_is_reprovisioned (B : Backend) (w : World) (i dhcp : value)
    (hoif : HostOnlyInterface) (g n l u : string) :
  config w !! "interface" = Some i ->
  truthy i = true ->
  fst (readNetworkConfig w) = Ret (VTry (OK (VDict (netconfig_dict g n l u)))) ->
  onReadHostOnlyInterface B (trace w) i = OK hoif ->
  Netaddr.format (hoif_ip hoif) <> g ->
  recover_absent (onReadDHCP B (trace w ++ [EReadHostOnlyInterface i]) i) = OK dhcp ->
  let warned :=
    {| config := config w;
       trace := trace (after_reads w i) ++ [misconfigured_warning (hoif_name hoif)] |} in
  assertNetworking B w = provisionNetworking B (VDict (netconfig_dict g n l u)) warned
  /\ exists rest,
       events_since w (snd (assertNetworking B w)) =
         [EReadHostOnlyInterface i; EReadDHCP i; misconfigured_warning (hoif_name hoif);
          networking_banner; EAddHostOnlyInterface] ++ rest.
Proof.
  intros Hi Ht Hnc Hread Hip Hdhcp. cbv zeta.
  assert (Hrun : assertNetworking B w =
                 provisionNetworking B (VDict (netconfig_dict g n l u))
                   {| config := config w;
                      trace := trace (after_reads w i)
                                 ++ [misconfigured_warning (hoif_name hoif)] |}).
  { rewrite (assertNetworking_configured B w i _ Hi Ht Hnc).
    rewrite Hread, Hdhcp. cbn [fmapTry recover_absent].
    rewrite assertNetworkConfiguration_present. cbv zeta.
    apply String.eqb_neq in Hip. rewrite Hip. reflexivity. }
  split; [exact Hrun |]. rewrite Hrun.
  match goal with
  | |- context [provisionNetworking B ?nc ?w0] =>
      destruct (provisionNetworking_begins B nc w0) as (rest & Hrest)
  end.
  exists rest. unfold events_since. rewrite Hrest. cbn [trace after_reads].
  rewrite <- !app_assoc. apply drop_app_length.
Qed.

Lemma drifted_interface_is_reprovisioned_witness :
  assertNetworking Scenarios.drifted Scenarios.configured =
    provisionNetworking Scenarios.drifted Scenarios.desired
      {| config := Scenarios.savedConfig;
         trace := [EReadHostOnlyInterface (VStr "vboxnet0"); EReadDHCP (VStr "vboxnet0");
                   misconfigured_warning "vboxnet0"] |}.
Proof.
  exact (proj1 (drifted_interface_is_reprovisioned Scenarios.drifted Scenarios.configured
           (VStr "vboxnet0") VNone Scenarios.strayInterface
           "172.21.21.1" "255.255.255.0" "172.21.21.2" "172.21.21.255"
           eq_refl eq_refl ltac:(vm_compute; reflexivity) eq_refl
           ltac:(vm_compute; discriminate) eq_refl)).
Defined.

(** X3: a DHCP read that fails for another reason than "not found" ends the
    reconciliation with a Failure: the interface read's own such failure if
    there is one, the DHCP read's otherwise.  Both reads have been made by
    then, and nothing is provisioned, also when the interface is absent or
    has drifted. *)
Theorem failed_dhcp_read_stops_reconciliation (B : Backend) (w : World)
    (i nc : value) (e : Error) :
  config w !! "interface" = Some i ->
  truthy i = true ->
  fst (readNetworkConfig w) = Ret (VTry (OK nc)) ->
  onReadDHCP B (trace w ++ [EReadHostOnlyInterface i]) i = Fail e ->
  err_kind e <> VirtualBoxObjectNotFound ->
  assertNetworking B w =
    (Ret (VTry (Fail
       match recover_absent (fmapTry VHoif (onReadHostOnlyInterface B (trace w) i)) with
       | Fail e' => e'
       | OK _ => e
       end)),
     after_reads w i).
Proof.
  intros Hi Ht Hnc Hdhcp Hk.
  rewrite (assertNetworking_configured B w i nc Hi Ht Hnc). rewrite Hdhcp.
  assert (Hkeep : recover_absent (Fail e) = Fail e).
  { cbn [recover_absent]. destruct (err_kind e); try contradiction; reflexivity. }
  rewrite Hkeep.
  destruct (recover_absent (fmapTry VHoif (onReadHostOnlyInterface B (trace w) i)));
    reflexivity.
Qed.

Lemma failed_dhcp_read_stops_reconciliation_witness :
  assertNetworking Scenarios.dhcpUnreadable Scenarios.configured =
    (Ret (VTry (Fail Scenarios.commandFailed)),
     after_reads Scenarios.configured (VStr "vboxnet0"))
  /\ assertNetworking Scenarios.bothUnreadable Scenarios.configured =
    (Ret (VTry (Fail Scenarios.commandFailed)),
     after_reads Scenarios.configured (VStr "vboxnet0")).
Proof.
  split.
  - exact (failed_dhcp_read_stops_reconciliation Scenarios.dhcpUnreadable
             Scenarios.configured (VStr "vboxnet0") Scenarios.desired
             Scenarios.commandFailed eq_refl eq_refl ltac:(vm_compute; reflexivity)
             eq_refl ltac:(discriminate)).
  - exact (failed_dhcp_read_stops_reconciliation Scenarios.bothUnreadable
             Scenarios.configured (VStr "vboxnet0") Scenarios.desired
             Scenarios.timedOut eq_refl eq_refl ltac:(vm_compute; reflexivity)
             eq_refl ltac:(discriminate)).
Defined.

(** ** Cold start *)

Lemma assertNetworking_unconfigured (B : Backend) (w : World) (nc : value) :
  truthy (default VNone (config w !! "interface")) = false ->
  fst (readNetworkConfig w) = Ret (VTry (OK nc)) ->
  assertNetworking B w = provisionNetworking B (VTry (OK nc)) w.
Proof.
  intros Hi Hnc. unfold assertNetworking.
  rewrite (mbind_eval _ _ w w (default VNone (config w !! "interface")))
    by reflexivity.
  rewrite (mbind_eval _ _ w w (VTry (OK nc)));
    [| rewrite (surjective_pairing (readNetworkConfig w)), Hnc,
         readNetworkConfig_pure; reflexivity].
  rewrite Hi. reflexivity.
Qed.

Lemma provisionNetworking_on_outcome (B : Backend) (t : Try value) (w : World) :
  let h := trace w ++ [networking_banner] in
  provisionNetworking B (VTry t) w =
    (match onAddHostOnlyInterface B h with
     | Fail e => Ret (VTry (Fail e))
     | OK _ => Raise TypeError
     end,
     {| config := config w; trace := h ++ [EAddHostOnlyInterface] |}).
Proof.
  cbv zeta. unfold provisionNetworking.
  erewrite mbind_eval; [| reflexivity].
  unfold Network.addHostOnlyInterface.
  erewrite mbind_eval; [| apply call_outcome].
  cbn [config trace]. fold networking_banner.
  destruct (onAddHostOnlyInterface B (trace w ++ [networking_banner])); reflexivity.
Qed.

(** X4: with no interface name on record (the key is missing, None or
    empty) assertNetworking makes no read and hands the outcome object that
    readNetworkConfig returned, not the dictionary inside it, to the
    provisioning path.  A host-only interface is added; a failure of that
    step is the result, and otherwise the lookup of the gateway in the
    outcome object raises TypeError: the new interface is left unconfigured
    and the configuration unchanged. *)
Theorem cold_start_adds_interface_then_raises (B : Backend) (w : World) (nc : value) :
  truthy (default VNone (config w !! "interface")) = false ->
  fst (readNetworkConfig w) = Ret (VTry (OK nc)) ->
  assertNetworking B w =
    (match onAddHostOnlyInterface B (trace w ++ [networking_banner]) with
     | Fail e => Ret (VTry (Fail e))
     | OK _ => Raise TypeError
     end,
     {| config := config w;
        trace := (trace w ++ [networking_banner]) ++ [EAddHostOnlyInterface] |}).
Proof.
  intros Hi Hnc. rewrite (assertNetworking_unconfigured B w nc Hi Hnc).
  apply provisionNetworking_on_outcome.
Qed.

Lemma cold_start_adds_interface_then_raises_witness :
  assertNetworking Scenarios.healthy Scenarios.unprovisioned =
    (Raise TypeError,
     {| config := config Scenarios.unprovisioned;
        trace := [networking_banner; EAddHostOnlyInterface] |})
  /\ assertNetworking Scenarios.addFails Scenarios.unprovisioned =
    (Ret (VTry (Fail Scenarios.commandFailed)),
     {| config := config Scenarios.unprovisioned;
        trace := [networking_banner; EAddHostOnlyInterface] |}).
Proof.
  split.
  - exact (cold_start_adds_interface_then_raises Scenarios.healthy Scenarios.unprovisioned
             Scenarios.desired eq_refl ltac:(vm_compute; reflexivity)).
  - exact (cold_start_adds_interface_then_raises Scenarios.addFails Scenarios.unprovisioned
             Scenarios.desired eq_refl ltac:(vm_compute; reflexivity)).
Defined.

(** ** What a run of the reconciliation can leave behind *)

Lemma mbind_inv_ret {A C} (m : M A) (k : A -> M C) (w : World) (r : C) :
  fst (mbind m k w) = Ret r ->
  exists a w', m w = (Ret a, w') /\ fst (k a w') = Ret r.
Proof.
  unfold mbind. destruct (m w) as [[a | x] w']; simpl; intros H.
  - exists a, w'. split; [reflexivity | exact H].
  - discriminate.
Qed.

Lemma readNetworkConfig_shape (w : World) (r : value) :
  fst (readNetworkConfig w) = Ret r ->
  exists g n l u, r = VTry (OK (VDict (netconfig_dict g n l u))).
Proof.
  unfold readNetworkConfig. cbv zeta. intros H.
  apply mbind_inv_ret in H as (network & w1 & _ & H).
  apply mbind_inv_ret in H as (netrange & w2 & _ & H).
  apply mbind_inv_ret in H as (gateway & w3 & _ & H).
  apply mbind_inv_ret in H as (lowerIP & w4 & _ & H).
  apply mbind_inv_ret in H as (upperIP & w5 & _ & H).
  injection H as <-. do 4 eexists. reflexivity.
Qed.

Lemma truthy_configured (w : World) :
  truthy (default VNone (config w !! "interface")) = true ->
  config w !! "interface" = Some (default VNone (config w !! "interface")).
Proof. destruct (config w !! "interface"); [reflexivity | discriminate]. Qed.

Ltac no_save := repeat constructor; unfold not_save; simpl; tauto.
Ltac find_elem := solve [left | right; find_elem].

Lemma kept_refl (w : World) : kept_or_saved w w.
Proof. exists []. rewrite app_nil_r. split; [reflexivity |]. left. split; [reflexivity | constructor]. Qed.

Lemma kept_unchanged (w : World) (evs : list Event) :
  Forall not_save evs ->
  kept_or_saved w {| config := config w; trace := trace w ++ evs |}.
Proof. intros H. exists evs. split; [reflexivity |]. left. split; [reflexivity | exact H]. Qed.

Lemma kept_step (w : World) (pre : list Event) (w' : World) :
  Forall not_save pre ->
  kept_or_saved {| config := config w; trace := trace w ++ pre |} w' ->
  kept_or_saved w w'.
Proof.
  intros Hpre (evs & Ht & H). exists (pre ++ evs). cbn [config trace] in *.
  rewrite Ht, app_assoc. split; [reflexivity |].
  destruct H as [[Hc Hevs] | (iface & Hc & Hs & Ha)].
  - left. split; [exact Hc | apply Forall_app; auto].
  - right. exists iface. rewrite !elem_of_app. auto.
Qed.

Lemma provisionNetworking_dict_settled (B : Backend) (g n l u : string) (w : World) :
  kept_or_saved w (snd (provisionNetworking B (VDict (netconfig_dict g n l u)) w))
  /\ outcome_or_raise (fst (provisionNetworking B (VDict (netconfig_dict g n l u)) w)).
Proof.
  rewrite provisionNetworking_steps. cbv zeta.
  destruct (onAddHostOnlyInterface B _) as [iface | e].
  - destruct (onConfigureHostOnlyInterface B _ iface (VStr g) (VStr n)) as [v | e].
    + destruct (onThenNonOutcome B v VNone) as [[| | | | | | | | | [v' | e']] | x];
        try (split; [cbn [snd]; rewrite <- !app_assoc; apply kept_unchanged; no_save
                    | intros r H; first [discriminate H
                                        | injection H as <-; eexists; reflexivity]]).
      unfold save_and_read. cbv zeta. cbn [config trace].
      destruct (onSaveConfig B _ _) as [s | e'];
        (split; [| intros r H; injection H as <-; eexists; reflexivity]);
        cbn [snd]; eexists; (split; [cbn [trace]; rewrite <- !app_assoc; reflexivity |]);
        right; exists iface; cbn [config]; (split; [reflexivity |]);
        split; find_elem.
    + split; [cbn [snd]; rewrite <- !app_assoc; apply kept_unchanged; no_save
             | intros r H; injection H as <-; eexists; reflexivity].
  - split; [cbn [snd]; rewrite <- !app_assoc; apply kept_unchanged; no_save
           | intros r H; injection H as <-; eexists; reflexivity].
Qed.

Lemma provisionNetworking_outcome_settled (B : Backend) (t : Try value) (w : World) :
  kept_or_saved w (snd (provisionNetworking B (VTry t) w))
  /\ outcome_or_raise (fst (provisionNetworking B (VTry t) w)).
Proof.
  rewrite provisionNetworking_on_outcome. cbv zeta. split.
  - cbn [snd]. rewrite <- !app_assoc. apply kept_unchanged. no_save.
  - cbn [fst]. destruct (onAddHostOnlyInterface B _); intros r H;
      [discriminate | injection H as <-; eexists; reflexivity].
Qed.

Lemma after_reads_kept (w : World) (i : value) : kept_or_saved w (after_reads w i).
Proof. unfold after_reads. rewrite <- !app_assoc. apply kept_unchanged. no_save. Qed.

Lemma outcome_is_outcome (t : Try value) : outcome_or_raise (Ret (VTry t)).
Proof. intros v H. injection H as <-. eexists. reflexivity. Qed.

(** Every run of [assertNetworking] leaves the configuration as it was or
    saved, and returns an Outcome or raises, unless it is the DHCP repair,
    which returns [None]. *)
Lemma assertNetworking_outcomes (B : Backend) (w : World) :
  kept_or_saved w (snd (assertNetworking B w))
  /\ (outcome_or_raise (fst (assertNetworking B w))
      \/ (fst (assertNetworking B w) = Ret VNone
          /\ exists i hoif, needs_dhcp_repair B w i hoif)).
Proof.
  destruct (readNetworkConfig w) as [rn wn] eqn:Ern.
  pose proof (readNetworkConfig_pure w) as Hpure. rewrite Ern in Hpure.
  cbn [snd] in Hpure. subst wn.
  destruct rn as [r | x].
  - assert (Hfst : fst (readNetworkConfig w) = Ret r) by (rewrite Ern; reflexivity).
    destruct (readNetworkConfig_shape w r Hfst) as (g & n & l & u & ->).
    destruct (truthy (default VNone (config w !! "interface"))) eqn:Ht.
    + pose proof (truthy_configured w Ht) as Hi.
      set (i := default VNone (config w !! "interface")) in *.
      set (reads := [EReadHostOnlyInterface i; EReadDHCP i]).
      assert (Hprov : forall pre w',
                Forall not_save pre ->
                w' = {| config := config w; trace := trace w ++ pre |} ->
                kept_or_saved w
                  (snd (provisionNetworking B (VDict (netconfig_dict g n l u)) w'))
                /\ (outcome_or_raise
                      (fst (provisionNetworking B (VDict (netconfig_dict g n l u)) w'))
                    \/ (fst (provisionNetworking B (VDict (netconfig_dict g n l u)) w')
                        = Ret VNone
                        /\ exists i hoif, needs_dhcp_repair B w i hoif))).
      { intros pre w' Hpre ->.
        destruct (provisionNetworking_dict_settled B g n l u
                    {| config := config w; trace := trace w ++ pre |}) as [Hk Ho].
        split; [apply (kept_step w pre); assumption | left; exact Ho]. }
      rewrite (assertNetworking_configured B w i _ Hi Ht Hfst).
      fold (after_reads w i).
      destruct (onReadHostOnlyInterface B (trace w) i) as [hoif | e1] eqn:Hr1;
        cbn [fmapTry recover_absent].
      * destruct (recover_absent (onReadDHCP B (trace w ++ [EReadHostOnlyInterface i]) i))
          as [dhcp | e2] eqn:Hr2.
        -- rewrite assertNetworkConfiguration_present. cbv zeta.
           destruct (String.eqb (Netaddr.format (hoif_ip hoif)) g) eqn:Hg.
           ++ destruct dhcp;
                try (split; [apply after_reads_kept | left; apply outcome_is_outcome]).
              rewrite provisionDHCP_steps. cbv zeta. cbn [fst snd config trace after_reads].
              split.
              ** rewrite <- !app_assoc. apply kept_unchanged. no_save.
              ** right. split; [reflexivity |]. exists i, hoif.
                 split; [exact Hi |]. split; [exact Ht |]. split; [exact Hr1 |].
                 split; [| exact Hr2].
                 exists g, n, l, u. split; [exact Hfst | apply String.eqb_eq; exact Hg].
           ++ apply (Hprov (reads ++ [misconfigured_warning (hoif_name hoif)]));
                [no_save |].
              unfold after_reads, reads. cbn [config trace].
              rewrite <- !app_assoc. reflexivity.
        -- split; [apply after_reads_kept | left; apply outcome_is_outcome].
      * destruct (ErrorKind_eqb (err_kind e1) VirtualBoxObjectNotFound).
        -- destruct (recover_absent
                       (onReadDHCP B (trace w ++ [EReadHostOnlyInterface i]) i))
             as [dhcp | e2].
           ++ rewrite assertNetworkConfiguration_absent.
              apply (Hprov reads); [no_save |].
              unfold after_reads, reads. rewrite <- !app_assoc. reflexivity.
           ++ split; [apply after_reads_kept | left; apply outcome_is_outcome].
        -- split; [apply after_reads_kept | left; apply outcome_is_outcome].
    + rewrite (assertNetworking_unconfigured B w _ Ht Hfst).
      destruct (provisionNetworking_outcome_settled B
                  (OK (VDict (netconfig_dict g n l u))) w) as [Hk Ho].
      split; [exact Hk | left; exact Ho].
  - unfold assertNetworking.
    rewrite (mbind_eval _ _ w w (default VNone (config w !! "interface"))) by reflexivity.
    rewrite (mbind_raise _ _ w w x Ern).
    split; [apply kept_refl | left; intros v H; discriminate].
Qed.

(** The DHCP repair returns what [provisionDHCP] returns. *)
Lemma dhcp_repair_returns_None (B : Backend) (w : World) (i : value)
    (hoif : HostOnlyInterface) :
  needs_dhcp_repair B w i hoif -> fst (assertNetworking B w) = Ret VNone.
Proof.
  intros (Hi & Ht & Hr1 & (g & n & l & u & Hnc & Hg) & Hr2).
  rewrite (assertNetworking_configured B w i _ Hi Ht Hnc).
  rewrite Hr1, Hr2. cbn [fmapTry recover_absent].
  rewrite assertNetworkConfiguration_present. cbv zeta.
  rewrite Hg, String.eqb_refl, provisionDHCP_steps. reflexivity.
Qed.

(** X5: assertNetworking returns an Outcome or raises in every run but one:
    when only the DHCP service has to be repaired (the interface on record
    exists with the desired gateway as its address and no DHCP service is
    observed), it returns None, the value that provisionDHCP hands back.
    It returns None in exactly those states. *)
Theorem assertNetworking_returns_None_iff_dhcp_repair (B : Backend) (w : World) :
  (fst (assertNetworking B w) = Ret VNone <->
     exists i hoif, needs_dhcp_repair B w i hoif)
  /\ (forall r, fst (assertNetworking B w) = Ret r -> r = VNone \/ exists t, r = VTry t).
Proof.
  destruct (assertNetworking_outcomes B w) as [_ Hres].
  split; [split |].
  - intros H. destruct Hres as [Ho | [_ Hrep]]; [| exact Hrep].
    destruct (Ho VNone H) as [t Ht]. discriminate.
  - intros (i & hoif & H). exact (dhcp_repair_returns_None B w i hoif H).
  - intros r H. destruct Hres as [Ho | [Hn _]].
    + right. exact (Ho r H).
    + left. congruence.
Qed.

Lemma assertNetworking_returns_None_iff_dhcp_repair_witness :
  fst (assertNetworking Scenarios.dhcpMissing Scenarios.configured) = Ret VNone.
Proof.
  apply (proj1 (assertNetworking_returns_None_iff_dhcp_repair Scenarios.dhcpMissing
                  Scenarios.configured)).
  exists (VStr "vboxnet0"), Scenarios.vboxnet0.
  split; [reflexivity |]. split; [reflexivity |]. split; [reflexivity |].
  split; [| reflexivity].
  exists "172.21.21.1", "255.255.255.0", "172.21.21.2", "172.21.21.255".
  split; vm_compute; reflexivity.
Defined.

(** X6: a run of assertNetworking changes the driver's configuration in one
    way only: after a host-only interface was added, the interface key is
    set, and the configuration that results is passed to saveConfig in the
    same run.  In every other run the configuration is unchanged and
    saveConfig is not called. *)
Theorem assertNetworking_saves_what_it_sets (B : Backend) (w : World) :
  let final := snd (assertNetworking B w) in
  (config final = config w /\ Forall not_save (events_since w final))
  \/ (exists iface,
        config final = <["interface" := iface]> (config w)
        /\ ESaveConfig (config final) ∈ events_since w final
        /\ EAddHostOnlyInterface ∈ events_since w final).
Proof.
  cbv zeta. destruct (assertNetworking_outcomes B w) as [(evs & Ht & H) _].
  unfold events_since. rewrite Ht, drop_app_length. exact H.
Qed.

(** X7: when assertConfig succeeded and the network needs the DHCP repair
    only, assertNetworking returns None and startMachine does what [then]
    makes of that None: the machine is started if it is turned into a
    Success, a Failure is the result if it is turned into one, and the run
    raises otherwise.  Whether the machine is started after a DHCP repair
    is decided by nothing else. *)
Theorem start_after_dhcp_repair (B : Backend) (uuid : value) (w : World)
    (v i : value) (hoif : HostOnlyInterface) :
  fst (assertConfig B w) = Ret (VTry (OK v)) ->
  needs_dhcp_repair B (snd (assertConfig B w)) i hoif ->
  let repaired := snd (assertNetworking B (snd (assertConfig B w))) in
  fst (assertNetworking B (snd (assertConfig B w))) = Ret VNone
  /\ startMachine B uuid w =
       match onThenNonOutcome B v VNone with
       | Ret (VTry (OK _)) => Machine.start B uuid repaired
       | Ret (VTry (Fail e)) => (Ret (VTry (Fail e)), repaired)
       | Ret _ => (Raise AttributeError, repaired)
       | Raise x => (Raise x, repaired)
       end.
Proof.
  intros Hc Hrep. cbv zeta.
  pose proof (dhcp_repair_returns_None B _ i hoif Hrep) as Hn.
  split; [exact Hn |].
  rewrite startMachine_unfold.
  destruct (assertConfig B w) as [r1 w1]. cbn [fst snd] in *. subst r1.
  rewrite Hn. reflexivity.
Qed.

Lemma start_after_dhcp_repair_witness :
  (fst (startMachine Scenarios.dhcpMissing (VStr "dev") Scenarios.emptyWorld)
   = Raise AttributeError
   /\ Forall not_start
        (trace (snd (startMachine Scenarios.dhcpMissing (VStr "dev")
                       Scenarios.emptyWorld))))
  /\ last (trace (snd (startMachine Scenarios.dhcpMissingWrapping (VStr "dev")
                         Scenarios.emptyWorld)))
     = Some (EStart (VStr "dev")).
Proof.
  assert (Hrep : forall B,
            onLoadConfigFile B = onLoadConfigFile Scenarios.healthy ->
            onReadHostOnlyInterface B = onReadHostOnlyInterface Scenarios.healthy ->
            onReadDHCP B = (fun _ _ => Fail Scenarios.notFound) ->
            fst (assertConfig B Scenarios.emptyWorld) = Ret (VTry (OK VConfig))
            /\ needs_dhcp_repair B (snd (assertConfig B Scenarios.emptyWorld))
                 (VStr "vboxnet0") Scenarios.vboxnet0).
  { intros B Hl Hr Hd.
    assert (Hc : assertConfig B Scenarios.emptyWorld
                 = assertConfig Scenarios.healthy Scenarios.emptyWorld).
    { unfold assertConfig, Config.loadConfigFile, mbind, history, emit, ret.
      cbn. rewrite Hl. reflexivity. }
    rewrite Hc. split; [vm_compute; reflexivity |].
    unfold needs_dhcp_repair. rewrite Hr, Hd.
    split; [vm_compute; reflexivity |]. split; [reflexivity |].
    split; [vm_compute; reflexivity |]. split; [| reflexivity].
    exists "172.21.21.1", "255.255.255.0", "172.21.21.2", "172.21.21.255".
    split; vm_compute; reflexivity. }
  split.
  - destruct (Hrep Scenarios.dhcpMissing eq_refl eq_refl eq_refl) as [Hc Hn].
    destruct (start_after_dhcp_repair Scenarios.dhcpMissing (VStr "dev")
                Scenarios.emptyWorld VConfig (VStr "vboxnet0") Scenarios.vboxnet0 Hc Hn)
      as [_ H].
    rewrite H. split; [reflexivity |]. vm_compute. repeat constructor; tauto.
  - destruct (Hrep Scenarios.dhcpMissingWrapping eq_refl eq_refl eq_refl) as [Hc Hn].
    destruct (start_after_dhcp_repair Scenarios.dhcpMissingWrapping (VStr "dev")
                Scenarios.emptyWorld VConfig (VStr "vboxnet0") Scenarios.vboxnet0 Hc Hn)
      as [_ H].
    rewrite H. vm_compute. reflexivity.
Defined.

Lemma readNetworkConfig_default (w : World) :
  config w !! "network" = Some (VStr "172.21.21.0/24") ->
  readNetworkConfig w =
    (Ret (VTry (OK (VDict (netconfig_dict
       "172.21.21.1" "255.255.255.0" "172.21.21.2" "172.21.21.255")))), w).
Proof.
  intros Hc. unfold readNetworkConfig. cbv zeta.
  rewrite (mbind_eval _ _ w w (VStr "172.21.21.0/24"));
    [| unfold Config.get; rewrite Hc; reflexivity].
  reflexivity.
Qed.

Lemma assertConfig_first_run (B : Backend) (w : World) (e : Error) :
  onLoadConfigFile B (trace w) = Fail e ->
  err_kind e = FileDoesNotExist ->
  let c := with_defaults (config w) in
  let h := (trace w ++ [ELoadConfigFile]) ++ [default_banner B] in
  assertConfig B w =
    (Ret (VTry (onSaveConfig B h c)), {| config := c; trace := h ++ [ESaveConfig c] |}).
Proof.
  intros H Hk. cbv zeta. unfold assertConfig, Config.loadConfigFile, mbind.
  rewrite H. simpl. rewrite Hk. reflexivity.
Qed.

(** X8: when the configuration file does not exist, startMachine never
    starts the machine and never returns a Success.  The defaults are
    written to memory and saved; a failed save is the result; otherwise the
    cold-start provisioning adds a host-only interface and the run ends
    with the Failure of that step or with TypeError. *)
Theorem first_run_never_starts (B : Backend) (uuid : value) (w : World) (e : Error) :
  onLoadConfigFile B (trace w) = Fail e ->
  err_kind e = FileDoesNotExist ->
  let c := with_defaults (config w) in
  let h := (trace w ++ [ELoadConfigFile]) ++ [default_banner B] in
  let saved := h ++ [ESaveConfig c] in
  startMachine B uuid w =
    match onSaveConfig B h c with
    | Fail e' => (Ret (VTry (Fail e')), {| config := c; trace := saved |})
    | OK _ =>
        (match onAddHostOnlyInterface B (saved ++ [networking_banner]) with
         | Fail e' => Ret (VTry (Fail e'))
         | OK _ => Raise TypeError
         end,
         {| config := c;
            trace := (saved ++ [networking_banner]) ++ [EAddHostOnlyInterface] |})
    end
  /\ Forall not_start (events_since w (snd (startMachine B uuid w)))
  /\ forall v, fst (startMachine B uuid w) <> Ret (VTry (OK v)).
Proof.
  intros H Hk. cbv zeta.
  assert (Hrun : startMachine B uuid w =
    match onSaveConfig B ((trace w ++ [ELoadConfigFile]) ++ [default_banner B])
            (with_defaults (config w)) with
    | Fail e' =>
        (Ret (VTry (Fail e')),
         {| config := with_defaults (config w);
            trace := ((trace w ++ [ELoadConfigFile]) ++ [default_banner B])
                       ++ [ESaveConfig (with_defaults (config w))] |})
    | OK _ =>
        (match onAddHostOnlyInterface B
                 ((((trace w ++ [ELoadConfigFile]) ++ [default_banner B])
                     ++ [ESaveConfig (with_defaults (config w))])
                    ++ [networking_banner]) with
         | Fail e' => Ret (VTry (Fail e'))
         | OK _ => Raise TypeError
         end,
         {| config := with_defaults (config w);
            trace := ((((trace w ++ [ELoadConfigFile]) ++ [default_banner B])
                         ++ [ESaveConfig (with_defaults (config w))])
                        ++ [networking_banner]) ++ [EAddHostOnlyInterface] |})
    end).
  { rewrite startMachine_unfold, (assertConfig_first_run B w e H Hk). cbv zeta.
    destruct (onSaveConfig B _ (with_defaults (config w))) as [v | e']; [| reflexivity].
    match goal with
    | |- context [assertNetworking B ?w1] =>
        rewrite (assertNetworking_unconfigured B w1
                   (VDict (netconfig_dict "172.21.21.1" "255.255.255.0"
                             "172.21.21.2" "172.21.21.255")));
        [| cbn [config]; unfold with_defaults; rewrite lookup_insert_eq; reflexivity
         | rewrite readNetworkConfig_default; [reflexivity |];
           cbn [config]; unfold with_defaults;
           rewrite lookup_insert_ne by discriminate; apply lookup_insert_eq]
    end.
    rewrite provisionNetworking_on_outcome. cbv zeta. cbn [config trace].
    destruct (onAddHostOnlyInterface B _); reflexivity. }
  rewrite Hrun. split; [reflexivity |].
  destruct (onSaveConfig B _ (with_defaults (config w))) as [v | e'].
  - split.
    + cbn [snd]. erewrite since_explicit; [| rewrite <- !app_assoc; reflexivity].
      repeat constructor; unfold not_start; simpl; tauto.
    + cbn [fst]. destruct (onAddHostOnlyInterface B _); intros ?; discriminate.
  - split; [| intros ?; discriminate].
    cbn [snd]. erewrite since_explicit; [| rewrite <- !app_assoc; reflexivity].
    repeat constructor; unfold not_start; simpl; tauto.
Qed.

Lemma first_run_never_starts_witness :
  Forall not_start
    (events_since Scenarios.emptyWorld
       (snd (startMachine Scenarios.firstRun (VStr "dev") Scenarios.emptyWorld)))
  /\ fst (startMachine Scenarios.firstRun (VStr "dev") Scenarios.emptyWorld)
     = Raise TypeError
  /\ fst (startMachine Scenarios.firstRunDiskFull (VStr "dev") Scenarios.emptyWorld)
     = Ret (VTry (Fail Scenarios.commandFailed)).
Proof.
  split; [| split].
  - exact (proj1 (proj2 (first_run_never_starts Scenarios.firstRun (VStr "dev")
             Scenarios.emptyWorld Scenarios.fileMissing eq_refl eq_refl))).
  - rewrite (proj1 (first_run_never_starts Scenarios.firstRun (VStr "dev")
               Scenarios.emptyWorld Scenarios.fileMissing eq_refl eq_refl)).
    reflexivity.
  - rewrite (proj1 (first_run_never_starts Scenarios.firstRunDiskFull (VStr "dev")
               Scenarios.emptyWorld Scenarios.fileMissing eq_refl eq_refl)).
    reflexivity.
Defined.

(** ** Writing the configuration *)

(** X9: saveInterface records the interface in memory before it saves, and
    does not undo that when the save fails: whatever the outcome of the
    save, which is what it returns, getNetworkInterface afterwards returns
    the new interface, every other key is unchanged, and the one
    configuration written is the one that holds the new interface. *)
Theorem saveInterface_sets_then_saves (B : Backend) (iface : value) (w : World) :
  let c := <["interface" := iface]> (config w) in
  saveInterface B iface w =
    (Ret (VTry (onSaveConfig B (trace w) c)),
     {| config := c; trace := trace w ++ [ESaveConfig c] |})
  /\ fst (getNetworkInterface (snd (saveInterface B iface w))) = Ret iface
  /\ (forall k, k <> "interface" ->
        config (snd (saveInterface B iface w)) !! k = config w !! k).
Proof.
  cbv zeta.
  assert (Hrun : saveInterface B iface w =
    (Ret (VTry (onSaveConfig B (trace w) (<["interface" := iface]> (config w)))),
     {| config := <["interface" := iface]> (config w);
        trace := trace w ++ [ESaveConfig (<["interface" := iface]> (config w))] |}))
    by reflexivity.
  rewrite Hrun. split; [reflexivity | split].
  - unfold getNetworkInterface, Config.get. cbn [fst snd config].
    rewrite lookup_insert_eq. reflexivity.
  - intros k Hk. cbn [snd config]. apply lookup_insert_ne. congruence.
Qed.

Lemma saveInterface_sets_then_saves_witness :
  fst (saveInterface Scenarios.diskFull (VStr "vboxnet1") Scenarios.configured)
  = Ret (VTry (Fail Scenarios.commandFailed))
  /\ fst (getNetworkInterface
            (snd (saveInterface Scenarios.diskFull (VStr "vboxnet1") Scenarios.configured)))
     = Ret (VStr "vboxnet1")
  /\ config (snd (saveInterface Scenarios.diskFull (VStr "vboxnet1") Scenarios.configured))
       !! "network" = Some (VStr "172.21.21.0/24").
Proof.
  destruct (saveInterface_sets_then_saves Scenarios.diskFull (VStr "vboxnet1")
              Scenarios.configured) as (Hrun & Hget & Hother).
  split; [| split].
  - rewrite Hrun. reflexivity.
  - exact Hget.
  - rewrite (Hother "network" ltac:(discriminate)). reflexivity.
Defined.

(** X10: makeDefaultConfig overwrites exactly two keys in memory: network
    becomes 172.21.21.0/24 and interface becomes None, so an interface that
    was on record is forgotten; every other key is kept.  That configuration
    is saved once and the outcome of the save is returned; the keys stay
    overwritten when the save fails. *)
Theorem makeDefaultConfig_overwrites_two_keys (B : Backend) (w : World) :
  let c := with_defaults (config w) in
  makeDefaultConfig B w =
    (Ret (VTry (onSaveConfig B (trace w ++ [default_banner B]) c)),
     {| config := c; trace := (trace w ++ [default_banner B]) ++ [ESaveConfig c] |})
  /\ c !! "network" = Some (VStr "172.21.21.0/24")
  /\ fst (getNetworkInterface (snd (makeDefaultConfig B w))) = Ret VNone
  /\ (forall k, k <> "network" -> k <> "interface" -> c !! k = config w !! k).
Proof.
  cbv zeta.
  assert (Hrun : makeDefaultConfig B w =
    (Ret (VTry (onSaveConfig B (trace w ++ [default_banner B])
                  (with_defaults (config w)))),
     {| config := with_defaults (config w);
        trace := (trace w ++ [default_banner B])
                   ++ [ESaveConfig (with_defaults (config w))] |}))
    by reflexivity.
  rewrite Hrun. unfold with_defaults. split; [reflexivity | split; [| split]].
  - rewrite lookup_insert_ne by discriminate. apply lookup_insert_eq.
  - unfold getNetworkInterface, Config.get. cbn [fst snd config].
    rewrite lookup_insert_eq. reflexivity.
  - intros k Hn Hi. rewrite !lookup_insert_ne by congruence. reflexivity.
Qed.

(** ** Networks too small for a gateway and a DHCP range *)

Lemma netaddr_size (n : Netaddr.IPNetwork) :
  0 <= Netaddr.net_value n < 2 ^ 32 -> 0 <= Netaddr.prefixlen n <= 32 ->
  Netaddr.size n = 2 ^ host_bits n.
Proof.
  intros Hv Hp. unfold Netaddr.size. rewrite netaddr_first, netaddr_last by lia. lia.
Qed.

Lemma netaddr_getitem_range (n : Netaddr.IPNetwork) (k : Z) :
  0 <= Netaddr.net_value n < 2 ^ 32 -> 0 <= Netaddr.prefixlen n <= 32 ->
  0 <= k ->
  Netaddr.getitem n k =
    if k <? 2 ^ host_bits n then Some (network_base n + k) else None.
Proof.
  intros Hv Hp Hk. unfold Netaddr.getitem.
  rewrite netaddr_size, netaddr_first by lia.
  destruct (Z.ltb_spec k 0); [lia |]. rewrite andb_false_r.
  destruct (Z.leb_spec 0 k); [| lia]. cbn [andb].
  destruct (Z.leb_spec k (2 ^ host_bits n - 1)), (Z.ltb_spec k (2 ^ host_bits n));
    try lia; reflexivity.
Qed.

(** X11: for a configured block of two addresses or one (prefix length 31
    or 32) there is no third address: readNetworkConfig raises IndexError
    and produces no configuration, and assertNetworking raises it before
    any call to the backend, whether an interface is on record or not. *)
Theorem small_network_raises_IndexError (B : Backend) (w : World)
    (cidr : string) (n : Netaddr.IPNetwork) :
  config w !! "network" = Some (VStr cidr) ->
  Netaddr.parse_ip_network cidr = Some n ->
  31 <= Netaddr.prefixlen n ->
  readNetworkConfig w = (Raise IndexError, w)
  /\ assertNetworking B w = (Raise IndexError, w).
Proof.
  intros Hc Hparse Hp.
  destruct (parse_ip_network_range _ _ Hparse) as [Hv Hp'].
  assert (Hread : readNetworkConfig w = (Raise IndexError, w)).
  { unfold readNetworkConfig. cbv zeta.
    rewrite (mbind_eval _ _ w w (VStr cidr));
      [| unfold Config.get; rewrite Hc; reflexivity].
    erewrite mbind_eval; [| unfold IPNetwork; rewrite Hparse; reflexivity].
    pose proof (netaddr_getitem_range n 1 Hv Hp' ltac:(lia)) as H1.
    pose proof (netaddr_getitem_range n 2 Hv Hp' ltac:(lia)) as H2.
    assert (Hh : host_bits n = 0 \/ host_bits n = 1) by (unfold host_bits; lia).
    destruct Hh as [Hh | Hh]; rewrite Hh in H1, H2; cbn in H1, H2.
    - apply mbind_raise. unfold getitem. rewrite H1. reflexivity.
    - erewrite mbind_eval; [| unfold getitem; rewrite H1; reflexivity].
      apply mbind_raise. unfold getitem. rewrite H2. reflexivity. }
  split; [exact Hread |].
  unfold assertNetworking.
  rewrite (mbind_eval _ _ w w (default VNone (config w !! "interface"))) by reflexivity.
  apply mbind_raise. exact Hread.
Qed.

Lemma small_network_raises_IndexError_witness :
  assertNetworking Scenarios.healthy Scenarios.pointToPoint
  = (Raise IndexError, Scenarios.pointToPoint).
Proof.
  exact (proj2 (small_network_raises_IndexError Scenarios.healthy Scenarios.pointToPoint
           "172.21.21.0/31" (Netaddr.mkIPNetwork 2887062784 31)
           eq_refl ltac:(vm_compute; reflexivity) ltac:(vm_compute; discriminate))).
Defined.

(** ** What the DHCP-add step is given *)

(** X12: when the removal of the DHCP service succeeds, the DHCP-add step
    is called with the value that the removal's Success carries, in the
    place of the interface name, together with the four entries of the
    network configuration; the interface name itself reaches the add step
    only through the recovery of a failed removal. *)
Theorem dhcp_add_receives_removal_value (B : Backend) (i v : value)
    (g n l u : string) (w : World) :
  onRemoveDHCP B (trace w ++ [dhcp_banner]) i = OK v ->
  events_since w (snd (provisionDHCP B i (VDict (netconfig_dict g n l u)) w)) =
    [dhcp_banner; ERemoveDHCP i; EAddDHCP v (VStr g) (VStr n) (VStr l) (VStr u)].
Proof.
  intros H. rewrite provisionDHCP_steps. cbv zeta. rewrite H.
  cbn [snd carried_after_removal].
  apply since_explicit. rewrite <- !app_assoc. reflexivity.
Qed.

Lemma dhcp_add_receives_removal_value_witness :
  events_since Scenarios.configured
    (snd (provisionDHCP Scenarios.removalSilent (VStr "vboxnet0") Scenarios.desired
            Scenarios.configured))
  = [dhcp_banner; ERemoveDHCP (VStr "vboxnet0");
     EAddDHCP VNone (VStr "172.21.21.1") (VStr "255.255.255.0")
       (VStr "172.21.21.2") (VStr "172.21.21.255")].
Proof.
  exact (dhcp_add_receives_removal_value Scenarios.removalSilent (VStr "vboxnet0") VNone
           "172.21.21.1" "255.255.255.0" "172.21.21.2" "172.21.21.255"
           Scenarios.configured eq_refl).
Defined.

(** ** The desired addresses, as numbers *)

Lemma readNetworkConfig_parsed (w : World) (cidr : string) (n : Netaddr.IPNetwork) :
  config w !! "network" = Some (VStr cidr) ->
  Netaddr.parse_ip_network cidr = Some n ->
  Netaddr.prefixlen n <= 30 ->
  fst (readNetworkConfig w) =
    Ret (VTry (OK (VDict (netconfig_dict
      (Netaddr.format (network_base n + 1))
      (Netaddr.format (2 ^ 32 - 2 ^ host_bits n))
      (Netaddr.format (network_base n + 2))
      (Netaddr.format (network_base n + 2 ^ host_bits n - 1)))))).
Proof.
  intros Hc Hparse Hp.
  destruct (parse_ip_network_range _ _ Hparse) as [Hv Hp'].
  destruct (netaddr_getitem n Hv ltac:(lia)) as (H1 & H2 & H3).
  unfold readNetworkConfig. cbv zeta.
  rewrite (mbind_eval _ _ w w (VStr cidr)); [| unfold Config.get; rewrite Hc; reflexivity].
  erewrite mbind_eval; [| unfold IPNetwork; rewrite Hparse; reflexivity].
  erewrite mbind_eval; [| unfold getitem; rewrite H1; reflexivity].
  erewrite mbind_eval; [| unfold getitem; rewrite H2; reflexivity].
  erewrite mbind_eval; [| unfold getitem; rewrite H3; reflexivity].
  rewrite netaddr_netmask by lia. reflexivity.
Qed.

Lemma network_base_multiple (n : Netaddr.IPNetwork) :
  0 <= host_bits n ->
  network_base n = 2 ^ host_bits n * (Netaddr.net_value n / 2 ^ host_bits n).
Proof.
  intros Hh. unfold network_base.
  assert (HP : 0 < 2 ^ host_bits n) by (apply Z.pow_pos_nonneg; lia).
  pose proof (Z.div_mod (Netaddr.net_value n) (2 ^ host_bits n) ltac:(lia)) as H.
  lia.
Qed.

Lemma masked_in_network (n : Netaddr.IPNetwork) (k : Z) :
  0 <= Netaddr.net_value n < 2 ^ 32 -> 0 <= Netaddr.prefixlen n <= 32 ->
  0 <= k < 2 ^ host_bits n ->
  0 <= network_base n + k < 2 ^ 32
  /\ Z.land (network_base n + k) (2 ^ 32 - 2 ^ host_bits n) = network_base n.
Proof.
  intros Hv Hp Hk.
  assert (Hh : 0 <= host_bits n <= 32) by (unfold host_bits; lia).
  set (P := 2 ^ host_bits n) in *.
  assert (HP : 0 < P) by (apply Z.pow_pos_nonneg; lia).
  assert (H32 : 2 ^ 32 = P * 2 ^ (32 - host_bits n)).
  { unfold P. rewrite <- Z.pow_add_r by lia. f_equal. lia. }
  pose proof (network_base_multiple n ltac:(lia)) as Hb. fold P in Hb.
  set (q := Netaddr.net_value n / P) in *.
  assert (Hq : 0 <= q < 2 ^ (32 - host_bits n)).
  { split.
    - apply Z.div_pos; lia.
    - apply Z.div_lt_upper_bound; [lia |]. rewrite <- H32. lia. }
  assert (Hrange : 0 <= network_base n + k < 2 ^ 32).
  { rewrite Hb, H32. nia. }
  split; [exact Hrange |].
  assert (Hmod : (network_base n + k) mod P = k).
  { rewrite Hb, Z.add_comm, Z.mul_comm, Z.mod_add by lia.
    apply Z.mod_small. lia. }
  subst q P. rewrite <- netmask_arith by lia. rewrite first_arith by lia.
  rewrite Hmod. lia.
Qed.

(** X13: for a configured block with at least four addresses the gateway,
    the lower bound and the upper bound of the desired configuration are
    32-bit addresses in increasing order, the gateway lying below the DHCP
    range and above the network address; each of them, masked with the
    netmask of the configuration, gives the network address of the
    configured block, and the upper bound has all host bits set. *)
Theorem desired_addresses_lie_in_network (w : World) (cidr : string)
    (n : Netaddr.IPNetwork) :
  config w !! "network" = Some (VStr cidr) ->
  Netaddr.parse_ip_network cidr = Some n ->
  Netaddr.prefixlen n <= 30 ->
  exists gateway netmask lowerIP upperIP : Z,
    fst (readNetworkConfig w) =
      Ret (VTry (OK (VDict (netconfig_dict
        (Netaddr.format gateway) (Netaddr.format netmask)
        (Netaddr.format lowerIP) (Netaddr.format upperIP)))))
    /\ 0 <= Z.land (Netaddr.net_value n) netmask < gateway
    /\ gateway < lowerIP /\ lowerIP < upperIP /\ upperIP < 2 ^ 32
    /\ Z.land gateway netmask = Z.land (Netaddr.net_value n) netmask
    /\ Z.land lowerIP netmask = Z.land (Netaddr.net_value n) netmask
    /\ Z.land upperIP netmask = Z.land (Netaddr.net_value n) netmask
    /\ Z.land upperIP (2 ^ host_bits n - 1) = 2 ^ host_bits n - 1.
Proof.
  intros Hc Hparse Hp.
  destruct (parse_ip_network_range _ _ Hparse) as [Hv Hp'].
  assert (Hh : 2 <= host_bits n <= 32) by (unfold host_bits; lia).
  assert (H4 : 2 ^ 2 <= 2 ^ host_bits n) by (apply Z.pow_le_mono_r; lia).
  change (2 ^ 2) with 4 in H4.
  exists (network_base n + 1), (2 ^ 32 - 2 ^ host_bits n),
         (network_base n + 2), (network_base n + 2 ^ host_bits n - 1).
  split; [exact (readNetworkConfig_parsed w cidr n Hc Hparse Hp) |].
  destruct (masked_in_network n 1 Hv Hp' ltac:(lia)) as [R1 M1].
  destruct (masked_in_network n 2 Hv Hp' ltac:(lia)) as [R2 M2].
  destruct (masked_in_network n (2 ^ host_bits n - 1) Hv Hp' ltac:(lia)) as [R3 M3].
  assert (M0 : Z.land (Netaddr.net_value n) (2 ^ 32 - 2 ^ host_bits n) = network_base n).
  { rewrite <- netmask_arith by lia. rewrite first_arith by lia. reflexivity. }
  assert (Hbase : 0 <= network_base n).
  { rewrite network_base_multiple by lia. apply Z.mul_nonneg_nonneg; [lia |].
    apply Z.div_pos; [lia |]. lia. }
  replace (network_base n + 2 ^ host_bits n - 1)
    with (network_base n + (2 ^ host_bits n - 1)) by lia.
  rewrite M0, M1, M2, M3.
  repeat split; try lia.
  replace (2 ^ host_bits n - 1) with (Z.ones (host_bits n)) by (rewrite Z.ones_equiv; lia).
  rewrite Z.land_ones by lia. rewrite network_base_multiple by lia.
  rewrite Z.add_comm, Z.mul_comm, Z.mod_add by lia.
  apply Z.mod_small. rewrite Z.ones_equiv. lia.
Qed.

Lemma desired_addresses_lie_in_network_witness :
  exists gateway netmask lowerIP upperIP : Z,
    fst (readNetworkConfig Scenarios.configured) =
      Ret (VTry (OK (VDict (netconfig_dict
        (Netaddr.format gateway) (Netaddr.format netmask)
        (Netaddr.format lowerIP) (Netaddr.format upperIP)))))
    /\ 0 <= Z.land 2887062784 netmask < gateway
    /\ gateway < lowerIP /\ lowerIP < upperIP /\ upperIP < 2 ^ 32
    /\ Z.land gateway netmask = Z.land 2887062784 netmask
    /\ Z.land lowerIP netmask = Z.land 2887062784 netmask
    /\ Z.land upperIP netmask = Z.land 2887062784 netmask
    /\ Z.land upperIP (2 ^ 8 - 1) = 2 ^ 8 - 1.
Proof.
  exact (desired_addresses_lie_in_network Scenarios.configured "172.21.21.0/24"
           (Netaddr.mkIPNetwork 2887062784 24)
           eq_refl ltac:(vm_compute; reflexivity) ltac:(vm_compute; discriminate)).
Defined.

(** ** Comparing addresses through their dotted-quad notation *)

Lemma octets_ok : forallb octet_ok (seq 0 256) = true.
Proof. vm_compute. reflexivity. Qed.

Lemma octet_roundtrip (n : Z) :
  0 <= n <= 255 ->
  no_dot (Netaddr.octet_str n) = true
  /\ Netaddr.parse_octet (Netaddr.octet_str n) = Some n.
Proof.
  intros Hn. pose proof octets_ok as H. rewrite forallb_forall in H.
  specialize (H (Z.to_nat n)).
  assert (Hin : In (Z.to_nat n) (seq 0 256)) by (apply in_seq; lia).
  specialize (H Hin). unfold octet_ok in H. rewrite Z2Nat.id in H by lia.
  apply andb_prop in H as [Hd Hp]. split; [exact Hd |].
  destruct (Netaddr.parse_octet (Netaddr.octet_str n)) as [m |]; [| discriminate].
  apply Z.eqb_eq in Hp. congruence.
Qed.

Lemma split_on_plain (a : string) :
  no_dot a = true -> Netaddr.split_on "." a = [a].
Proof.
  induction a as [| c a IH]; simpl; intros H; [reflexivity |].
  apply andb_prop in H as [Hc Ha]. apply negb_true_iff in Hc. rewrite Hc.
  rewrite (IH Ha). reflexivity.
Qed.

Lemma split_on_prefix (a rest : string) :
  no_dot a = true ->
  Netaddr.split_on "." (a +:+ String "." rest) = a :: Netaddr.split_on "." rest.
Proof.
  induction a as [| c a IH]; simpl; intros H; [reflexivity |].
  apply andb_prop in H as [Hc Ha]. apply negb_true_iff in Hc. rewrite Hc.
  rewrite (IH Ha). reflexivity.
Qed.

Lemma octet_range (x : Z) : 0 <= Z.land x 255 <= 255.
Proof.
  change 255 with (Z.ones 8) at 1 2. rewrite Z.land_ones by lia.
  change (2 ^ 8) with 256.
  pose proof (Z.mod_pos_bound x 256 ltac:(lia)) as H. lia.
Qed.

Lemma octet_bit (v k i : Z) :
  0 <= k -> 0 <= i ->
  Z.testbit (Z.shiftl (Z.land (Z.shiftr v k) (Z.ones 8)) k) i =
    Z.testbit v i && (k <=? i) && (i <? k + 8).
Proof.
  intros Hk Hi. rewrite Z.shiftl_spec by lia.
  destruct (Z.leb_spec k i).
  - rewrite Z.land_spec, Z.shiftr_spec, Z.testbit_ones_nonneg by lia.
    replace (i - k + k) with i by lia.
    destruct (Z.ltb_spec (i - k) 8), (Z.ltb_spec i (k + 8)); try lia;
      destruct (Z.testbit v i); reflexivity.
  - rewrite Z.testbit_neg_r by lia. rewrite andb_false_r. reflexivity.
Qed.

Lemma testbit_above (v i : Z) : 0 <= v < 2 ^ 32 -> 32 <= i -> Z.testbit v i = false.
Proof.
  intros Hv Hi. apply Z.testbit_false; [lia |].
  rewrite Z.div_small; [reflexivity |].
  assert (2 ^ 32 <= 2 ^ i) by (apply Z.pow_le_mono_r; lia). lia.
Qed.

Lemma octets_recompose (v : Z) :
  0 <= v < 2 ^ 32 ->
  Z.lor (Z.shiftl (Z.land (Z.shiftr v 24) 255) 24)
    (Z.lor (Z.shiftl (Z.land (Z.shiftr v 16) 255) 16)
       (Z.lor (Z.shiftl (Z.land (Z.shiftr v 8) 255) 8) (Z.land v 255))) = v.
Proof.
  intros Hv. change 255 with (Z.ones 8). apply Z.bits_inj'. intros i Hi.
  rewrite !Z.lor_spec, !octet_bit by lia.
  rewrite Z.land_spec, Z.testbit_ones_nonneg by lia.
  destruct (Z.lt_ge_cases i 32) as [Hlt | Hge].
  - destruct (Z.leb_spec 24 i), (Z.leb_spec 16 i), (Z.leb_spec 8 i),
      (Z.ltb_spec i (24 + 8)), (Z.ltb_spec i (16 + 8)), (Z.ltb_spec i (8 + 8)),
      (Z.ltb_spec i 8); try lia; destruct (Z.testbit v i); reflexivity.
  - rewrite (testbit_above v i Hv Hge). reflexivity.
Qed.

(** Printing a 32-bit address and parsing it again gives the address. *)
Lemma format_roundtrip (v : Z) :
  0 <= v < 2 ^ 32 -> Netaddr.str_to_int (Netaddr.format v) = Some v.
Proof.
  intros Hv. unfold Netaddr.str_to_int, Netaddr.format.
  destruct (octet_roundtrip _ (octet_range (Z.shiftr v 24))) as [D3 P3].
  destruct (octet_roundtrip _ (octet_range (Z.shiftr v 16))) as [D2 P2].
  destruct (octet_roundtrip _ (octet_range (Z.shiftr v 8))) as [D1 P1].
  destruct (octet_roundtrip _ (octet_range v)) as [D0 P0].
  change ("." +:+ ?x) with (String "." x).
  rewrite (split_on_prefix _ _ D3).
  change ("." +:+ ?x) with (String "." x).
  rewrite (split_on_prefix _ _ D2).
  change ("." +:+ ?x) with (String "." x).
  rewrite (split_on_prefix _ _ D1), (split_on_plain _ D0).
  rewrite P3, P2, P1, P0. f_equal. apply octets_recompose. exact Hv.
Qed.

Lemma format_inj (a b : Z) :
  0 <= a < 2 ^ 32 -> 0 <= b < 2 ^ 32 ->
  Netaddr.format a = Netaddr.format b -> a = b.
Proof.
  intros Ha Hb H. pose proof (format_roundtrip a Ha) as Ra.
  rewrite H, (format_roundtrip b Hb) in Ra. congruence.
Qed.

Lemma provisionNetworking_adds (B : Backend) (nc : value) (w0 w : World) :
  (exists pre, trace w = trace w0 ++ pre) ->
  EAddHostOnlyInterface ∈ events_since w0 (snd (provisionNetworking B nc w)).
Proof.
  intros [pre Hpre]. destruct (provisionNetworking_begins B nc w) as (rest & Hrest).
  unfold events_since. rewrite Hrest, Hpre, <- !app_assoc, drop_app_length.
  rewrite !elem_of_app. right. left. apply elem_of_cons. right.
  apply list_elem_of_singleton. reflexivity.
Qed.

(** X14: the address check of the reconciliation is exact.  With an
    interface on record that the backend reports with a 32-bit address, the
    DHCP state observed, and a configured block of at least four addresses,
    a run of assertNetworking adds a new host-only interface if and only if
    the reported address differs from the second address of the block: the
    comparison of the two dotted-quad strings decides equality of the
    addresses. *)
Theorem interface_added_iff_address_differs (B : Backend) (w : World) (i dhcp : value)
    (hoif : HostOnlyInterface) (cidr : string) (n : Netaddr.IPNetwork) :
  config w !! "interface" = Some i ->
  truthy i = true ->
  config w !! "network" = Some (VStr cidr) ->
  Netaddr.parse_ip_network cidr = Some n ->
  Netaddr.prefixlen n <= 30 ->
  onReadHostOnlyInterface B (trace w) i = OK hoif ->
  0 <= hoif_ip hoif < 2 ^ 32 ->
  recover_absent (onReadDHCP B (trace w ++ [EReadHostOnlyInterface i]) i) = OK dhcp ->
  EAddHostOnlyInterface ∈ events_since w (snd (assertNetworking B w))
  <-> hoif_ip hoif <> network_base n + 1.
Proof.
  intros Hi Ht Hc Hparse Hp Hread Hip Hdhcp.
  destruct (parse_ip_network_range _ _ Hparse) as [Hv Hp'].
  assert (H4 : 2 ^ 2 <= 2 ^ host_bits n)
    by (apply Z.pow_le_mono_r; unfold host_bits; lia).
  change (2 ^ 2) with 4 in H4.
  destruct (masked_in_network n 1 Hv Hp' ltac:(lia)) as [Hgw _].
  pose proof (readNetworkConfig_parsed w cidr n Hc Hparse Hp) as Hnc.
  rewrite (assertNetworking_configured B w i _ Hi Ht Hnc).
  rewrite Hread, Hdhcp. cbn [fmapTry recover_absent].
  rewrite assertNetworkConfiguration_present. cbv zeta.
  destruct (String.eqb (Netaddr.format (hoif_ip hoif))
              (Netaddr.format (network_base n + 1))) eqn:Hg.
  - apply String.eqb_eq in Hg. apply format_inj in Hg; [| exact Hip | exact Hgw].
    split; [| intros Hne; contradiction].
    intros Hin. exfalso.
    destruct dhcp;
      try (cbn [snd] in Hin;
           erewrite since_explicit in Hin by (rewrite <- !app_assoc; reflexivity);
           repeat (apply elem_of_cons in Hin as [Hin | Hin]; [discriminate |]);
           inversion Hin).
    rewrite provisionDHCP_steps in Hin. cbv zeta in Hin. cbn [snd config trace] in Hin.
    erewrite since_explicit in Hin by (rewrite <- !app_assoc; reflexivity).
    repeat (apply elem_of_cons in Hin as [Hin | Hin]; [discriminate |]).
    inversion Hin.
  - apply String.eqb_neq in Hg. split.
    + intros _ Heq. apply Hg. rewrite Heq. reflexivity.
    + intros _. apply provisionNetworking_adds. cbn [trace].
      eexists. rewrite <- !app_assoc. reflexivity.
Qed.

Lemma interface_added_iff_address_differs_witness :
  EAddHostOnlyInterface ∈
    events_since Scenarios.configured
      (snd (assertNetworking Scenarios.drifted Scenarios.configured))
  /\ ~ EAddHostOnlyInterface ∈
       events_since Scenarios.configured
         (snd (assertNetworking Scenarios.dhcpMissing Scenarios.configured)).
Proof.
  split.
  - apply (interface_added_iff_address_differs Scenarios.drifted Scenarios.configured
             (VStr "vboxnet0") VNone Scenarios.strayInterface "172.21.21.0/24"
             (Netaddr.mkIPNetwork 2887062784 24)
             eq_refl eq_refl eq_refl ltac:(vm_compute; reflexivity)
             ltac:(vm_compute; discriminate) eq_refl
             ltac:(vm_compute; split; [discriminate | reflexivity]) eq_refl).
    vm_compute. discriminate.
  - intros Hin.
    apply (interface_added_iff_address_differs Scenarios.dhcpMissing Scenarios.configured
             (VStr "vboxnet0") VNone Scenarios.vboxnet0 "172.21.21.0/24"
             (Netaddr.mkIPNetwork 2887062784 24)
             eq_refl eq_refl eq_refl ltac:(vm_compute; reflexivity)
             ltac:(vm_compute; discriminate) eq_refl
             ltac:(vm_compute; split; [discriminate | reflexivity]) eq_refl) in Hin.
    apply Hin. vm_compute. reflexivity.
Defined.

(** ** Importing a machine *)

(** X15: importMachine is a fail-fast chain of four stages: assertConfig,
    the inspection of the image file, the making of the import parameters
    from the inspected image, the name and the profile, and the import of
    those parameters under the name.  The first Failure is the result and
    the run ends in the state that stage left, whatever the later import
    functions are; when all succeed the result is that of the import. *)
Theorem importMachine_fails_fast (B : Backend) (machine : ImportFunctions)
    (name ovfFile engineProfile : value) (w : World) :
  let rc := assertConfig B w in
  let ri := inspectOVF machine ovfFile (snd rc) in
  (forall e, fst rc = Ret (VTry (Fail e)) ->
     importMachine B machine name ovfFile engineProfile w = (Ret (VTry (Fail e)), snd rc))
  /\ (forall v e, fst rc = Ret (VTry (OK v)) -> fst ri = Ret (VTry (Fail e)) ->
        importMachine B machine name ovfFile engineProfile w
        = (Ret (VTry (Fail e)), snd ri))
  /\ (forall v image, fst rc = Ret (VTry (OK v)) -> fst ri = Ret (VTry (OK image)) ->
        let rp := makeImportParams machine image name engineProfile (snd ri) in
        (forall e, fst rp = Ret (VTry (Fail e)) ->
           importMachine B machine name ovfFile engineProfile w
           = (Ret (VTry (Fail e)), snd rp))
        /\ (forall params, fst rp = Ret (VTry (OK params)) ->
              importMachine B machine name ovfFile engineProfile w
              = importOVF machine params ovfFile name (snd rp))).
Proof.
  cbv zeta. unfold importMachine.
  destruct (assertConfig B w) as [rc wc] eqn:Ec. cbn [fst snd].
  split; [| split].
  - intros e ->. rewrite (mbind_eval _ _ w wc _ Ec). reflexivity.
  - intros v e -> Hi. rewrite (mbind_eval _ _ w wc _ Ec).
    destruct (inspectOVF machine ovfFile wc) as [ri wi] eqn:Ei. cbn [fst snd] in *.
    subst ri.
    rewrite (mbind_eval _ _ wc wi (VTry (Fail e)))
      by (rewrite then_on_success, Ei; reflexivity).
    reflexivity.
  - intros v image -> Hi. rewrite (mbind_eval _ _ w wc _ Ec).
    destruct (inspectOVF machine ovfFile wc) as [ri wi] eqn:Ei. cbn [fst snd] in *.
    subst ri.
    rewrite (mbind_eval _ _ wc wi (VTry (OK image)))
      by (rewrite then_on_success, Ei; reflexivity).
    cbn [Monads.bind].
    destruct (makeImportParams machine image name engineProfile wi) as [rp wp] eqn:Ep.
    cbn [fst snd]. split.
    + intros e ->. rewrite (mbind_eval _ _ wi wp _ Ep). reflexivity.
    + intros params ->. rewrite (mbind_eval _ _ wi wp _ Ep). reflexivity.
Qed.

Lemma importMachine_fails_fast_witness :
  fst (importMachine Scenarios.healthy Scenarios.importer (VStr "dev")
         (VStr "box.ovf") VNone Scenarios.emptyWorld) = Ret (VTry (OK (VStr "dev")))
  /\ fst (importMachine Scenarios.healthy Scenarios.brokenImage (VStr "dev")
            (VStr "box.ovf") VNone Scenarios.emptyWorld)
     = Ret (VTry (Fail Scenarios.commandFailed))
  /\ fst (importMachine Scenarios.firstRunDiskFull Scenarios.importer (VStr "dev")
            (VStr "box.ovf") VNone Scenarios.emptyWorld)
     = Ret (VTry (Fail Scenarios.commandFailed)).
Proof.
  split; [| split].
  - destruct (importMachine_fails_fast Scenarios.healthy Scenarios.importer (VStr "dev")
                (VStr "box.ovf") VNone Scenarios.emptyWorld) as (_ & _ & H).
    destruct (H VConfig (VTuple [VStr "image"; VStr "box.ovf"])
                ltac:(vm_compute; reflexivity) ltac:(vm_compute; reflexivity))
      as [_ H'].
    rewrite (H' (VTuple [VTuple [VStr "image"; VStr "box.ovf"]; VStr "dev"; VNone])
               ltac:(vm_compute; reflexivity)).
    reflexivity.
  - destruct (importMachine_fails_fast Scenarios.healthy Scenarios.brokenImage (VStr "dev")
                (VStr "box.ovf") VNone Scenarios.emptyWorld) as (_ & H & _).
    rewrite (H VConfig Scenarios.commandFailed
               ltac:(vm_compute; reflexivity) ltac:(vm_compute; reflexivity)).
    reflexivity.
  - destruct (importMachine_fails_fast Scenarios.firstRunDiskFull Scenarios.importer
                (VStr "dev") (VStr "box.ovf") VNone Scenarios.emptyWorld) as (H & _).
    rewrite (H Scenarios.commandFailed ltac:(vm_compute; reflexivity)).
    reflexivity.
Defined.
